(** * Icon detection in [lisa-desktop/src/server.py]

    A shallow embedding of the icon-detection part of the desktop control
    server: the template registry [ICON_TEMPLATES], the multi-scale
    template matcher, the seven heuristic detectors, the overlap
    suppression pass and the two request handlers that tie them together.

    Conventions.
    - Python [int]s are [Z]; numpy fixed-width scalars are [Z] with their
      wrap-around written out ([wrap_int32], [wrap_uint16]); a numpy
      scalar combined with a Python [int] keeps its own width.
    - Python floats are exact rationals [Q].  The geometric tests compare
      quotients of screen-sized integers with short decimal literals,
      where exact and rounded arithmetic agree.  The comparison of the
      [float32] correlation surface with the request's threshold is
      numpy's, and is left to it ([float32_ge]).
    - OpenCV, numpy and base64 routines are external to the repository;
      they are the fields of the class [cv2].  They are total on the
      arrays of a captured screen; [cv2.Canny] raises on an empty array,
      which the code can hand to it in one place, the region of interest
      of [detect_search_icons].
    - An exception is a [Raise]; the handlers' [try/except] turns it into
      an error response. *)

From Stdlib Require Import ZArith QArith Qround Lia String Ascii List Bool.
From stdpp Require Import gmap strings list sorting.

Local Open Scope Z_scope.

(** ** Python values *)

(** Results of code that can raise. *)
Inductive result (A : Type) : Type :=
| Ok (a : A)
| Raise (e : string).
Arguments Ok {A} a.
Arguments Raise {A} e.

Global Instance result_ret : MRet result := fun A a => Ok a.

Global Instance result_bind : MBind result := fun A B k m =>
  match m with
  | Ok a => k a
  | Raise e => Raise e
  end.

(** An integer as the JSON encoder sees it: a Python [int], or a numpy
    [int32] scalar (which [json.dumps] refuses). *)
Inductive integer : Type :=
| py_int (z : Z)
| np_int32 (z : Z).

Definition to_Z (n : integer) : Z :=
  match n with
  | py_int z => z
  | np_int32 z => z
  end.

Definition is_py_int (n : integer) : bool :=
  match n with
  | py_int _ => true
  | np_int32 _ => false
  end.

Definition wrap_int32 (z : Z) : Z := (z + 2 ^ 31) mod 2 ^ 32 - 2 ^ 31.
Definition wrap_uint16 (z : Z) : Z := z mod 2 ^ 16.

(** [abs] of an [int32] scalar. *)
Definition abs_int32 (z : Z) : Z := wrap_int32 (Z.abs z).

#[local] Set Warnings "-register-all".

(** Values of a decoded JSON request body. *)
Inductive json : Type :=
| JNull
| JBool (b : bool)
| JNum (q : Q)
| JStr (s : string)
| JArr (items : list json)
| JObj (fields : list (string * json)).

(** [str.lower] on ASCII names. *)
Definition ascii_lower (c : ascii) : ascii :=
  let n := N_of_ascii c in
  if ((65 <=? n) && (n <=? 90))%N then ascii_of_N (n + 32) else c.

Fixpoint lower (s : string) : string :=
  match s with
  | EmptyString => EmptyString
  | String c s' => String (ascii_lower c) (lower s')
  end.

(** [v.lower()] for a JSON value: only strings have the method. *)
Definition json_lower (v : json) : result string :=
  match v with
  | JStr s => Ok (lower s)
  | _ => Raise "AttributeError: object has no attribute 'lower'"
  end.

(** Python truthiness, as used by [not name or not template_base64]. *)
Definition truthy (v : json) : bool :=
  match v with
  | JNull => false
  | JBool b => b
  | JNum q => negb (Qeq_bool q 0)
  | JStr s => negb (String.eqb s "")
  | JArr items => negb (length items =? 0)%nat
  | JObj fields => negb (length fields =? 0)%nat
  end.

(** [data.get(key, default)]. *)
Definition get (data : gmap string json) (key : string) (dflt : json) : json :=
  match data !! key with
  | Some v => v
  | None => dflt
  end.

(** Strict comparison of floats. *)
Definition Qltb (a b : Q) : bool := negb (Qle_bool b a).

(** ** Detections *)

Record Bounds : Type := mkBounds {
  x : integer;
  y : integer;
  width : integer;
  height : integer
}.

Record Detection : Type := mkDetection {
  type : string;
  text : string;
  bounds : Bounds;
  confidence : Q
}.

(** ** [sorted]: Python's stable sort

    [sorted] is stable, also under [reverse=True]: elements whose keys
    compare equal keep their input order.  For a total preorder on keys a
    stable sort has one possible result, computed here by insertion.
    [before a b] says that the key of [a] sorts strictly ahead of the key
    of [b]. *)
Section Sorted.
Context {A : Type} (before : A -> A -> bool).

Fixpoint sorted_insert (a : A) (l : list A) : list A :=
  match l with
  | [] => [a]
  | b :: l' => if before b a then b :: sorted_insert a l' else a :: b :: l'
  end.

Definition sorted (l : list A) : list A := foldr sorted_insert [] l.
End Sorted.

(** [key=lambda x: x['confidence'], reverse=True] *)
Definition by_confidence_desc (a b : Detection) : bool :=
  Qltb (confidence b) (confidence a).

(** ** [remove_overlapping_detections] *)

(** The body of the inner loop for one [kept]: [true] when the loop sets
    [should_keep = False] and breaks. *)
Definition overlaps (det kept : Detection) (overlap_thresh : Q) : bool :=
  let b1 := bounds det in
  let b2 := bounds kept in
  let x1 := Z.max (to_Z (x b1)) (to_Z (x b2)) in
  let y1 := Z.max (to_Z (y b1)) (to_Z (y b2)) in
  let x2 := Z.min (to_Z (x b1) + to_Z (width b1)) (to_Z (x b2) + to_Z (width b2)) in
  let y2 := Z.min (to_Z (y b1) + to_Z (height b1)) (to_Z (y b2) + to_Z (height b2)) in
  if (x1 <? x2) && (y1 <? y2) then
    let intersection := (x2 - x1) * (y2 - y1) in
    let area1 := to_Z (width b1) * to_Z (height b1) in
    let area2 := to_Z (width b2) * to_Z (height b2) in
    let union := area1 + area2 - intersection in
    let iou := if 0 <? union then (inject_Z intersection / inject_Z union)%Q else 0%Q in
    Qltb overlap_thresh iou
  else false.

(** The inner [for kept in keep] loop with its [break]. *)
Fixpoint should_keep (det : Detection) (keep : list Detection) (overlap_thresh : Q) : bool :=
  match keep with
  | [] => true
  | kept :: keep' =>
      if overlaps det kept overlap_thresh then false
      else should_keep det keep' overlap_thresh
  end.

(** The outer [for det in detections] loop; [keep] is the list built so far. *)
Fixpoint suppress_loop (detections keep : list Detection) (overlap_thresh : Q) : list Detection :=
  match detections with
  | [] => keep
  | det :: rest =>
      if should_keep det keep overlap_thresh
      then suppress_loop rest (keep ++ [det]) overlap_thresh
      else suppress_loop rest keep overlap_thresh
  end.

Definition remove_overlapping_detections (detections : list Detection) (overlap_thresh : Q)
  : list Detection :=
  if (length detections =? 0)%nat then []
  else suppress_loop (sorted by_confidence_desc detections) [] overlap_thresh.

Definition default_overlap_thresh : Q := 0.5.

(** ** Arrays *)

(** A single-channel image: rows of pixel values. *)
Definition gray : Type := list (list Z).

(** A three-channel image. *)
Definition color : Type := list (list (Z * Z * Z)).

(** The arrays stored in the registry: [len(template.shape)] is 2 or 3. *)
Inductive ndarray : Type :=
| Gray (g : gray)
| Color (c : color).

Definition shape0 {P : Type} (a : list (list P)) : Z := Z.of_nat (length a).

Definition shape1 {P : Type} (a : list (list P)) : Z :=
  match a with
  | [] => 0
  | row :: _ => Z.of_nat (length row)
  end.

(** [a[r0:r1, c0:c1]] for non-negative indices. *)
Definition slice {P : Type} (l : list P) (lo hi : Z) : list P :=
  take (Z.to_nat (hi - lo)) (drop (Z.to_nat lo) l).

Definition slice2 {P : Type} (a : list (list P)) (r0 r1 c0 c1 : Z) : list (list P) :=
  map (fun row => slice row c0 c1) (slice a r0 r1).

(** An array without elements: no rows, or rows of no columns. *)
Definition is_empty {P : Type} (a : list (list P)) : bool :=
  (shape0 a =? 0) || (shape1 a =? 0).

(** [mask1 + mask2] on [uint8] arrays. *)
Definition uint8_add (m1 m2 : gray) : gray :=
  zip_with (zip_with (fun a b => (a + b) mod 256)) m1 m2.

(** [np.around]: round half to even. *)
Definition around (q : Q) : Z :=
  let f := Qfloor q in
  let d := (q - inject_Z f)%Q in
  if Qltb d 0.5 then f
  else if Qltb 0.5 d then f + 1
  else if Z.even f then f else f + 1.

(** ** External routines *)

Definition contour : Type := list (Z * Z).

Inductive retrieval : Type := RETR_EXTERNAL | RETR_TREE.

Class cv2 : Type := {
  cvtColor_RGB2GRAY : color -> gray;
  cvtColor_BGR2GRAY : color -> gray;
  cvtColor_RGB2HSV : color -> color;
  (** [cv2.resize(src, None, fx=, fy=)] *)
  resize : gray -> Q -> Q -> gray;
  (** [cv2.matchTemplate(image, templ, cv2.TM_CCOEFF_NORMED)] *)
  matchTemplate : gray -> gray -> list (list Q);
  (** [score >= threshold] for an entry of the [float32] surface and a
      Python number, as numpy evaluates it: in [float32], with the
      threshold rounded to [float32]. *)
  float32_ge : Q -> Q -> bool;
  (** The [(x, y)] pairs zipped from [np.where(result >= threshold)]
      reversed, for a threshold that is a list or a dict: numpy converts
      and broadcasts it, or raises. *)
  where_ge_array : list (list Q) -> json -> result (list (Z * Z));
  inRange : color -> Z * Z * Z -> Z * Z * Z -> gray;
  (** [cv2.findContours(image, mode, cv2.CHAIN_APPROX_SIMPLE)[0]] *)
  findContours : gray -> retrieval -> list contour;
  contourArea : contour -> Q;
  boundingRect : contour -> Z * Z * Z * Z;
  arcLength : contour -> bool -> Q;
  approxPolyDP : contour -> Q -> bool -> contour;
  Canny : gray -> Z -> Z -> gray;
  (** [cv2.HoughLinesP(image, 1, np.pi/180, threshold=, minLineLength=,
      maxLineGap=)]: [None] or [int32] segments [(x1, y1, x2, y2)]. *)
  HoughLinesP : gray -> Z -> Z -> Z -> option (list (Z * Z * Z * Z));
  (** [cv2.HoughCircles(image, cv2.HOUGH_GRADIENT, dp=1, minDist=,
      param1=, param2=, minRadius=, maxRadius=)]: [None] or float
      circles [(x, y, r)]. *)
  HoughCircles : gray -> Z -> Z -> Z -> Z -> Z -> option (list (Q * Q * Q));
  (** [base64.b64decode] *)
  b64decode : string -> result (list Z);
  (** [cv2.imdecode(np.frombuffer(bytes, dtype=np.uint8), cv2.IMREAD_COLOR)] *)
  imdecode : list Z -> result (option color)
}.

(** ** [find_template_matches] *)

Definition scales : list Q := [0.8; 0.9; 1.0; 1.1; 1.2]%Q.

(** [l[i]]: a negative index counts from the end. *)
Definition item {A : Type} (l : list A) (i : Z) : option A :=
  if i <? 0 then
    if - i <=? Z.of_nat (length l) then l !! Z.to_nat (Z.of_nat (length l) + i) else None
  else l !! Z.to_nat i.

(** [result[y, x]]. *)
Definition at_yx (res : list (list Q)) (py px : Z) : result Q :=
  match item res py with
  | Some row => match item row px with
                | Some v => Ok v
                | None => Raise "IndexError: index is out of bounds"
                end
  | None => Raise "IndexError: index is out of bounds"
  end.

(** A [for] loop that appends one element per item and stops at the first
    exception. *)
Fixpoint each {A B : Type} (f : A -> result B) (l : list A) : result (list B) :=
  match l with
  | [] => Ok []
  | a :: l' => b ← f a; bs ← each f l'; Ok (b :: bs)
  end.

(** The [(x, y)] points of one row at which the mask is set. *)
Definition where_row (py : nat) (row : list bool) : list (Z * Z) :=
  omap (fun c : nat * bool =>
          if snd c then Some (Z.of_nat (fst c), Z.of_nat py) else None)
       (imap (fun px b => (px, b)) row).

(** The [(x, y)] pairs zipped from [np.where(mask)] reversed: the points at
    which the mask is set, in row-major order. *)
Definition where_xy (mask : list (list bool)) : list (Z * Z) :=
  concat (imap where_row mask).

(** The number a request value stands for in a numpy comparison: numbers
    compare as they are, booleans as 1 and 0, anything else is refused. *)
Definition threshold_value (threshold : json) : option Q :=
  match threshold with
  | JNum t => Some t
  | JBool b => Some (if b then 1 else 0)%Q
  | _ => None
  end.

(** [result >= threshold] for a threshold that is not a list or a dict. *)
Definition ge_threshold `{CV : cv2} (res : list (list Q)) (threshold : json)
  : result (list (list bool)) :=
  match threshold_value threshold with
  | Some t => Ok (map (map (fun v => float32_ge v t)) res)
  | None => Raise "TypeError: '>=' not supported"
  end.

(** [zip(...)] of [np.where(result >= threshold)] reversed, with the
    threshold as it came out of the request. *)
Definition where_ge `{CV : cv2} (res : list (list Q)) (threshold : json)
  : result (list (Z * Z)) :=
  match threshold with
  | JArr _ | JObj _ => where_ge_array res threshold
  | _ => mask ← ge_threshold res threshold; Ok (where_xy mask)
  end.

(** [cv2.cvtColor(template, cv2.COLOR_BGR2GRAY)] when [len(template.shape) == 3]. *)
Definition grayscale `{CV : cv2} (template : ndarray) : gray :=
  match template with
  | Color c => cvtColor_BGR2GRAY c
  | Gray g => g
  end.

Section Matcher.
Context `{CV : cv2}.

(** One iteration of [for scale in ...]: the detections it appends. *)
Definition match_scale (screen_gray template : gray) (name : string) (threshold : json)
    (scale : Q) : result (list Detection) :=
  let resized_template := resize template scale scale in
  let h := shape0 resized_template in
  let w := shape1 resized_template in
  if (shape0 screen_gray <? h) || (shape1 screen_gray <? w) then Ok []
  else
    let res := matchTemplate screen_gray resized_template in
    points ← where_ge res threshold;
    each (fun pt =>
            score ← at_yx res (snd pt) (fst pt);
            Ok {| type := "icon";
                  text := name;
                  bounds := {| x := py_int (fst pt); y := py_int (snd pt);
                               width := py_int w; height := py_int h |};
                  confidence := score |})
         points.

Fixpoint scale_loop (screen_gray template : gray) (name : string) (threshold : json)
    (todo : list Q) (results : list Detection) : result (list Detection) :=
  match todo with
  | [] => Ok results
  | scale :: todo' =>
      found ← match_scale screen_gray template name threshold scale;
      scale_loop screen_gray template name threshold todo' (results ++ found)
  end.

Definition find_template_matches (screen_gray : gray) (template : ndarray) (name : string)
    (threshold : json) : result (list Detection) :=
  let template := grayscale template in
  results ← scale_loop screen_gray template name threshold scales [];
  Ok (remove_overlapping_detections results default_overlap_thresh).
End Matcher.

(** What a loop appended, from what each iteration gave. *)
Definition appended {A : Type} (found : list (option A)) : list A :=
  omap (fun a : option A => a) found.

(** ** The heuristic detectors

    Each detector collects its filtered candidates in [results] (the
    [*_results] definitions) and returns a slice [results[:n]]. *)

Definition icon (label : string) (bx b_y bw bh : integer) (conf : Q) : Detection :=
  {| type := "icon"; text := label;
     bounds := {| x := bx; y := b_y; width := bw; height := bh |};
     confidence := conf |}.

(** [w / h if h > 0 else 0] *)
Definition aspect (w h : Z) : Q :=
  if 0 <? h then (inject_Z w / inject_Z h)%Q else 0%Q.

(** [y < screen_gray.shape[0] * 0.15] *)
Definition in_top_band (screen_gray : gray) (py : Z) : bool :=
  Qltb (inject_Z py) (inject_Z (shape0 screen_gray) * 0.15)%Q.

Section Detectors.
Context `{CV : cv2}.

Definition close_candidate (c : contour) : option Detection :=
  let area := contourArea c in
  if Qltb 100 area && Qltb area 5000 then
    let '(bx, b_y, w, h) := boundingRect c in
    let aspect_ratio := aspect w h in
    if Qltb 0.5 aspect_ratio && Qltb aspect_ratio 2.0 then
      Some (icon "close" (py_int bx) (py_int b_y) (py_int w) (py_int h) 0.7)
    else None
  else None.

Definition close_results (screen_rgb : color) : list Detection :=
  let hsv := cvtColor_RGB2HSV screen_rgb in
  let mask1 := inRange hsv (0, 100, 100) (10, 255, 255) in
  let mask2 := inRange hsv (160, 100, 100) (180, 255, 255) in
  let red_mask := uint8_add mask1 mask2 in
  let contours := findContours red_mask RETR_EXTERNAL in
  omap close_candidate contours.

Definition detect_close_buttons (screen_gray : gray) (screen_rgb : color) : list Detection :=
  take 5 (close_results screen_rgb).

Definition minimize_candidate (screen_gray : gray) (line : Z * Z * Z * Z) : option Detection :=
  let '(x1, y1, x2, y2) := line in
  let dy := abs_int32 (wrap_int32 (y2 - y1)) in
  let dx := abs_int32 (wrap_int32 (x2 - x1)) in
  if (dy <? 3) && ((8 <? dx) && (dx <? 30)) then
    if in_top_band screen_gray y1 then
      Some (icon "minimize"
                 (np_int32 (wrap_int32 (Z.min x1 x2 - 5)))
                 (np_int32 (wrap_int32 (y1 - 10)))
                 (np_int32 (wrap_int32 (dx + 10)))
                 (py_int 20) 0.6)
    else None
  else None.

Definition minimize_results (screen_gray : gray) : list Detection :=
  let edges := Canny screen_gray 50 150 in
  let lines := HoughLinesP edges 20 10 2 in
  match lines with
  | Some lines => omap (minimize_candidate screen_gray) lines
  | None => []
  end.

Definition detect_minimize_buttons (screen_gray : gray) (screen_rgb : color) : list Detection :=
  take 5 (minimize_results screen_gray).

Definition maximize_candidate (screen_gray : gray) (c : contour) : option Detection :=
  let epsilon := (0.02 * arcLength c true)%Q in
  let approx := approxPolyDP c epsilon true in
  if (length approx =? 4)%nat then
    let '(bx, b_y, w, h) := boundingRect approx in
    let aspect_ratio := aspect w h in
    if (Qltb 0.8 aspect_ratio && Qltb aspect_ratio 1.2)
       && ((10 <? w) && (w <? 40))
       && in_top_band screen_gray b_y then
      Some (icon "maximize" (py_int bx) (py_int b_y) (py_int w) (py_int h) 0.6)
    else None
  else None.

Definition maximize_results (screen_gray : gray) : list Detection :=
  let edges := Canny screen_gray 50 150 in
  let contours := findContours edges RETR_TREE in
  omap (maximize_candidate screen_gray) contours.

Definition detect_maximize_buttons (screen_gray : gray) (screen_rgb : color) : list Detection :=
  take 5 (maximize_results screen_gray).

Definition checkbox_candidate (c : contour) : option Detection :=
  let '(bx, b_y, w, h) := boundingRect c in
  let aspect_ratio := aspect w h in
  if (Qltb 0.8 aspect_ratio && Qltb aspect_ratio 1.2)
     && ((10 <? w) && (w <? 30))
     && ((10 <? h) && (h <? 30)) then
    Some (icon "checkbox" (py_int bx) (py_int b_y) (py_int w) (py_int h) 0.5)
  else None.

Definition checkbox_results (screen_gray : gray) : list Detection :=
  let edges := Canny screen_gray 50 150 in
  let contours := findContours edges RETR_TREE in
  omap checkbox_candidate contours.

Definition detect_checkboxes (screen_gray : gray) : list Detection :=
  take 10 (checkbox_results screen_gray).

(** [np.uint16(np.around(circles))] for one circle. *)
Definition uint16_circle (c : Q * Q * Q) : Z * Z * Z :=
  let '(cx, cy, r) := c in
  (wrap_uint16 (around cx), wrap_uint16 (around cy), wrap_uint16 (around r)).

Definition radio_candidate (c : Z * Z * Z) : Detection :=
  let '(cx, cy, r) := c in
  icon "radio"
       (py_int (wrap_uint16 (cx - r)))
       (py_int (wrap_uint16 (cy - r)))
       (py_int (wrap_uint16 (2 * r)))
       (py_int (wrap_uint16 (2 * r))) 0.6.

Definition radio_results (screen_gray : gray) : list Detection :=
  let circles := HoughCircles screen_gray 20 50 30 5 15 in
  match circles with
  | Some circles => map radio_candidate (map uint16_circle circles)
  | None => []
  end.

Definition detect_radio_buttons (screen_gray : gray) : list Detection :=
  take 10 (radio_results screen_gray).

(** One iteration of the loop over the circles: the detection it appends,
    if any.  Near the left or the top edge the [uint16] subtraction wraps,
    the slice is empty and [cv2.Canny] raises. *)
Definition search_candidate (screen_gray : gray) (c : Z * Z * Z) : result (option Detection) :=
  let '(cx, cy, r) := c in
  let top := wrap_uint16 (wrap_uint16 (cy - r) - 5) in
  let left := wrap_uint16 (wrap_uint16 (cx - r) - 5) in
  let roi := slice2 screen_gray
               (Z.max 0 top)
               (Z.min (shape0 screen_gray) (wrap_uint16 (wrap_uint16 (cy + r) + 15)))
               (Z.max 0 left)
               (Z.min (shape1 screen_gray) (wrap_uint16 (wrap_uint16 (cx + r) + 15))) in
  if is_empty roi then Raise "cv2.error: (-215:Assertion failed) !_src.empty() in function 'Canny'"
  else
    let edges := Canny roi 50 150 in
    let lines := HoughLinesP edges 10 5 3 in
    match lines with
    | Some lines =>
        if (0 <? length lines)%nat then
          let side := wrap_uint16 (wrap_uint16 (2 * r) + 15) in
          Ok (Some (icon "search" (py_int left) (py_int top) (py_int side) (py_int side) 0.6))
        else Ok None
    | None => Ok None
    end.

Definition search_results (screen_gray : gray) : result (list Detection) :=
  let circles := HoughCircles screen_gray 30 50 30 8 25 in
  match circles with
  | Some circles =>
      found ← each (search_candidate screen_gray) (map uint16_circle circles);
      Ok (appended found)
  | None => Ok []
  end.

Definition detect_search_icons (screen_gray : gray) : result (list Detection) :=
  results ← search_results screen_gray;
  Ok (take 5 results).

(** [(min(x1, x2), y1, abs(x2 - x1))] for a nearly horizontal segment. *)
Definition horizontal_line (line : Z * Z * Z * Z) : option (Z * Z * Z) :=
  let '(x1, y1, x2, y2) := line in
  if abs_int32 (wrap_int32 (y2 - y1)) <? 3
  then Some (Z.min x1 x2, y1, abs_int32 (wrap_int32 (x2 - x1)))
  else None.

(** [key=lambda l: (l[0], l[1])] *)
Definition by_x_then_y (a b : Z * Z * Z) : bool :=
  let '(a0, a1, _) := a in
  let '(b0, b1, _) := b in
  (a0 <? b0) || ((a0 =? b0) && (a1 <? b1)).

Definition menu_candidate (l1 l2 l3 : Z * Z * Z) : option Detection :=
  let '(l1x, l1y, l1len) := l1 in
  let '(l2x, l2y, _) := l2 in
  let '(l3x, l3y, _) := l3 in
  if (abs_int32 (wrap_int32 (l1x - l2x)) <? 5) && (abs_int32 (wrap_int32 (l2x - l3x)) <? 5) then
    let spacing1 := wrap_int32 (l2y - l1y) in
    let spacing2 := wrap_int32 (l3y - l2y) in
    if ((3 <? spacing1) && (spacing1 <? 15))
       && (abs_int32 (wrap_int32 (spacing1 - spacing2)) <? 3) then
      Some (icon "menu"
                 (py_int (wrap_int32 (l1x - 5)))
                 (py_int (wrap_int32 (l1y - 5)))
                 (py_int (wrap_int32 (l1len + 10)))
                 (py_int (wrap_int32 (wrap_int32 (l3y - l1y) + 10))) 0.7)
    else None
  else None.

(** [for i in range(len(horizontal_lines) - 2)] over the triples
    [horizontal_lines[i:i+3]]. *)
Fixpoint menu_triples (horizontal_lines : list (Z * Z * Z)) : list Detection :=
  match horizontal_lines with
  | l1 :: rest =>
      match rest with
      | l2 :: l3 :: _ =>
          match menu_candidate l1 l2 l3 with
          | Some d => d :: menu_triples rest
          | None => menu_triples rest
          end
      | _ => []
      end
  | [] => []
  end.

Definition menu_results (screen_gray : gray) : list Detection :=
  let edges := Canny screen_gray 50 150 in
  let lines := HoughLinesP edges 15 15 2 in
  match lines with
  | Some lines =>
      let horizontal_lines := omap horizontal_line lines in
      menu_triples (sorted by_x_then_y horizontal_lines)
  | None => []
  end.

Definition detect_hamburger_menu (screen_gray : gray) : list Detection :=
  take 5 (menu_results screen_gray).

(** ** [detect_common_ui_elements] *)

(** [icon_name in [...]] *)
Definition in_names (icon_name : string) (names : list string) : bool :=
  existsb (String.eqb icon_name) names.

Definition detect_common_ui_elements (screen_gray : gray) (screen_rgb : color)
    (icon_name : string) (threshold : json) : result (list Detection) :=
  if in_names icon_name ["close"; "x"; "fermer"] then
    Ok (detect_close_buttons screen_gray screen_rgb)
  else if in_names icon_name ["minimize"; "minimiser"; "_"; "moins"] then
    Ok (detect_minimize_buttons screen_gray screen_rgb)
  else if in_names icon_name ["maximize"; "maximiser"; "agrandir"; "square"] then
    Ok (detect_maximize_buttons screen_gray screen_rgb)
  else if in_names icon_name ["checkbox"; "check"; "case a cocher"] then
    Ok (detect_checkboxes screen_gray)
  else if in_names icon_name ["radio"; "radio button"; "bouton radio"] then
    Ok (detect_radio_buttons screen_gray)
  else if in_names icon_name ["search"; "recherche"; "loupe"; "magnifying glass"] then
    detect_search_icons screen_gray
  else if in_names icon_name ["menu"; "hamburger"; "trois lignes"] then
    Ok (detect_hamburger_menu screen_gray)
  else Ok [].
End Detectors.

(** ** The request handlers *)

(** The body of the response to [/display/find-icons]. *)
Inductive IconsResponse : Type :=
| IconsOk (found : list Detection)
| IconsError (e : string).

Definition success (r : IconsResponse) : bool :=
  match r with
  | IconsOk _ => true
  | IconsError _ => false
  end.

Definition icons (r : IconsResponse) : list Detection :=
  match r with
  | IconsOk found => found
  | IconsError _ => []
  end.

Definition status (r : IconsResponse) : Z :=
  match r with
  | IconsOk _ => 200
  | IconsError _ => 500
  end.

(** The body of the response to [/display/register-icon]. *)
Inductive RegisterResponse : Type :=
| RegisterOk (name : string) (w h : Z)
| RegisterError (code : Z) (e : string).

(** [json.dumps] accepts Python numbers and strings, not numpy integers. *)
Definition serializable (d : Detection) : bool :=
  let b := bounds d in
  is_py_int (x b) && is_py_int (y b) && is_py_int (width b) && is_py_int (height b).

(** [web.json_response({'success': True, 'icons': icons})] *)
Definition json_response (found : list Detection) : result (list Detection) :=
  if forallb serializable found then Ok found
  else Raise "TypeError: Object of type int32 is not JSON serializable".

(** The [try/except] around the handler body. *)
Definition respond (body : result (list Detection)) : IconsResponse :=
  match body with
  | Ok found => IconsOk found
  | Raise e => IconsError e
  end.

Section Handlers.
Context `{CV : cv2}.

(** The statements inside [try:], from the decoded body [data] and the
    captured [screenshot] to the list handed to the encoder. *)
Definition find_icons_body (ICON_TEMPLATES : gmap string ndarray) (screenshot : color)
    (data : gmap string json) : result (list Detection) :=
  icon_name ← json_lower (get data "icon" (JStr ""));
  let threshold := get data "threshold" (JNum 0.8) in
  let screen_np := screenshot in
  let screen_gray := cvtColor_RGB2GRAY screen_np in
  found ← match ICON_TEMPLATES !! icon_name with
          | Some template => find_template_matches screen_gray template icon_name threshold
          | None => Ok []
          end;
  found ← match found with
          | [] =>
              more ← detect_common_ui_elements screen_gray screen_np icon_name threshold;
              Ok (found ++ more)
          | _ :: _ => Ok found
          end;
  json_response found.

Definition display_find_icons (ICON_TEMPLATES : gmap string ndarray) (screenshot : color)
    (data : gmap string json) : IconsResponse :=
  respond (find_icons_body ICON_TEMPLATES screenshot data).

(** [base64.b64decode(template_base64)] on a truthy JSON value. *)
Definition json_b64decode (v : json) : result (list Z) :=
  match v with
  | JStr s => b64decode s
  | _ => Raise "TypeError: argument should be a bytes-like object or ASCII string"
  end.

Definition register_icon_body (ICON_TEMPLATES : gmap string ndarray) (data : gmap string json)
    : result (gmap string ndarray * RegisterResponse) :=
  name ← json_lower (get data "name" (JStr ""));
  let template_base64 := get data "template" (JStr "") in
  if String.eqb name "" || negb (truthy template_base64) then
    Ok (ICON_TEMPLATES, RegisterError 400 "Name and template required")
  else
    template_bytes ← json_b64decode template_base64;
    decoded ← imdecode template_bytes;
    match decoded with
    | None => Ok (ICON_TEMPLATES, RegisterError 400 "Invalid image data")
    | Some template =>
        Ok (<[name := Color template]> ICON_TEMPLATES,
            RegisterOk name (shape1 template) (shape0 template))
    end.

(** The registry after the request, and the response. *)
Definition display_register_icon (ICON_TEMPLATES : gmap string ndarray)
    (data : gmap string json) : gmap string ndarray * RegisterResponse :=
  match register_icon_body ICON_TEMPLATES data with
  | Ok r => r
  | Raise e => (ICON_TEMPLATES, RegisterError 500 e)
  end.
End Handlers.

(** ** Notions used in the statements *)

(** The detections a call returns: those of its list, none when it raises. *)
Definition returned (r : result (list Detection)) : list Detection :=
  match r with
  | Ok found => found
  | Raise _ => []
  end.

Global Instance Qeq_decision (a b : Q) : Decision (a == b)%Q := Qeq_dec a b.

(** Intersection over union of two boxes, as the suppression loop computes
    it; boxes that do not intersect have IoU 0. *)
Definition IoU (b1 b2 : Bounds) : Q :=
  let x1 := Z.max (to_Z (x b1)) (to_Z (x b2)) in
  let y1 := Z.max (to_Z (y b1)) (to_Z (y b2)) in
  let x2 := Z.min (to_Z (x b1) + to_Z (width b1)) (to_Z (x b2) + to_Z (width b2)) in
  let y2 := Z.min (to_Z (y b1) + to_Z (height b1)) (to_Z (y b2) + to_Z (height b2)) in
  if (x1 <? x2) && (y1 <? y2) then
    let intersection := (x2 - x1) * (y2 - y1) in
    let union := to_Z (width b1) * to_Z (height b1)
                 + to_Z (width b2) * to_Z (height b2) - intersection in
    if 0 <? union then (inject_Z intersection / inject_Z union)%Q else 0%Q
  else 0%Q.

(** Later elements of the kept list never overlap earlier ones. *)
Definition apart (t : Q) (a b : Detection) : Prop := overlaps b a t = false.

(** Boxes and detections for the worked examples. *)
Definition box (bx b_y bw bh : Z) : Bounds :=
  {| x := py_int bx; y := py_int b_y; width := py_int bw; height := py_int bh |}.

Definition hit (label : string) (b : Bounds) (conf : Q) : Detection :=
  {| type := "icon"; text := label; bounds := b; confidence := conf |}.


(** A JSON value that is not a list or an object. *)
Definition is_scalar (v : json) : bool :=
  match v with
  | JArr _ | JObj _ => false
  | _ => true
  end.

(** What one iteration of the scale loop contributes: an icon labelled
    [name], made of Python numbers, with the shape of the template resized
    by [scale], which fits the screen, and with the correlation score of
    the surface at its position; when the threshold is a scalar it is a
    number, the position is not negative and the score passed numpy's
    comparison with it. *)
Definition from_scale `{CV : cv2} (screen_gray template : gray) (name : string)
    (threshold : json) (scale : Q) (d : Detection) : Prop :=
  let resized_template := resize template scale scale in
  let res := matchTemplate screen_gray resized_template in
  text d = name
  /\ serializable d = true
  /\ to_Z (width (bounds d)) = shape1 resized_template
  /\ to_Z (height (bounds d)) = shape0 resized_template
  /\ shape1 resized_template <= shape1 screen_gray
  /\ shape0 resized_template <= shape0 screen_gray
  /\ type d = "icon"
  /\ at_yx res (to_Z (y (bounds d))) (to_Z (x (bounds d))) = Ok (confidence d)
  /\ (exists row, row ∈ res /\ confidence d ∈ row)
  /\ (is_scalar threshold = true ->
      exists t,
        threshold_value threshold = Some t
        /\ float32_ge (confidence d) t = true
        /\ 0 <= to_Z (x (bounds d)) /\ 0 <= to_Z (y (bounds d))).

(** The alias lists of [detect_common_ui_elements], each with the label
    its detector writes. *)
Definition alias_groups : list (string * list string) :=
  [("close", ["close"; "x"; "fermer"]);
   ("minimize", ["minimize"; "minimiser"; "_"; "moins"]);
   ("maximize", ["maximize"; "maximiser"; "agrandir"; "square"]);
   ("checkbox", ["checkbox"; "check"; "case a cocher"]);
   ("radio", ["radio"; "radio button"; "bouton radio"]);
   ("search", ["search"; "recherche"; "loupe"; "magnifying glass"]);
   ("menu", ["menu"; "hamburger"; "trois lignes"])].

(** [icon_name] is one of the aliases. *)
Definition recognized (icon_name : string) : bool :=
  existsb (fun group => in_names icon_name (snd group)) alias_groups.

(** ** A scripted stand-in for the external routines

    It answers with prescribed candidates, whatever the pixels: [scores]
    is the correlation surface, [contours], [lines] and [circles] are what
    the contour, segment and circle finders report.  Its [resize] scales
    the shape as OpenCV does (rounded products); a contour is measured by
    its bounding box; scores and thresholds are compared exactly, and a
    one-number list is broadcast as that number. *)
Definition rect_contour (bx b_y w h : Z) : contour :=
  [(bx, b_y); (bx + w - 1, b_y); (bx + w - 1, b_y + h - 1); (bx, b_y + h - 1)].

Definition contour_box (c : contour) : Z * Z * Z * Z :=
  match c with
  | [] => (0, 0, 0, 0)
  | (px, py) :: rest =>
      let x0 := foldr Z.min px (map fst rest) in
      let y0 := foldr Z.min py (map snd rest) in
      let x1 := foldr Z.max px (map fst rest) in
      let y1 := foldr Z.max py (map snd rest) in
      (x0, y0, x1 - x0 + 1, y1 - y0 + 1)
  end.

Definition blank {P : Type} (p : P) (rows cols : Z) : list (list P) :=
  replicate (Z.to_nat rows) (replicate (Z.to_nat cols) p).

Definition scripted_cv2 (scores : list (list Q)) (contours : list contour)
    (lines : option (list (Z * Z * Z * Z))) (circles : option (list (Q * Q * Q))) : cv2 :=
  {| cvtColor_RGB2GRAY := map (map (fun p => fst (fst p)));
     cvtColor_BGR2GRAY := map (map (fun p => fst (fst p)));
     cvtColor_RGB2HSV := fun c => c;
     resize := fun g fx fy =>
       blank 0 (around (inject_Z (shape0 g) * fy)) (around (inject_Z (shape1 g) * fx));
     matchTemplate := fun _ _ => scores;
     float32_ge := fun v t => Qle_bool t v;
     where_ge_array := fun res threshold =>
       match threshold with
       | JArr [JNum t] => Ok (where_xy (map (map (fun v => Qle_bool t v)) res))
       | _ => Raise "ValueError: operands could not be broadcast together"
       end;
     inRange := fun c _ _ => map (map (fun _ => 0)) c;
     findContours := fun _ _ => contours;
     contourArea := fun c => let '(_, _, w, h) := contour_box c in inject_Z (w * h);
     boundingRect := contour_box;
     arcLength := fun c _ => inject_Z (Z.of_nat (length c));
     approxPolyDP := fun c _ _ => c;
     Canny := fun g _ _ => g;
     HoughLinesP := fun _ _ _ _ => lines;
     HoughCircles := fun _ _ _ _ _ _ => circles;
     b64decode := fun s => Ok (map (fun c => Z.of_N (N_of_ascii c)) (list_ascii_of_string s));
     imdecode := fun bytes =>
       match bytes with
       | [] => Raise "cv2.error: empty buffer"
       | 0 :: _ => Ok None
       | _ => Ok (Some [map (fun b => (b, b, b)) bytes])
       end |}.

(** A black 64 x 48 screenshot and a 4 x 4 template. *)
Definition screen : color := blank (0, 0, 0) 48 64.
Definition patch : ndarray := Color (blank (0, 0, 0) 4 4).

(** The body [{"icon": name}] and [{"icon": name, "threshold": t}]. *)
Definition ask (name : string) : gmap string json := {[ "icon" := JStr name ]}.
Definition ask_with (name : string) (t : Q) : gmap string json :=
  <[ "threshold" := JNum t ]> (ask name).

(** A detection of type ["icon"] with the given label and confidence. *)
Definition labelled (label : string) (conf : Q) (d : Detection) : Prop :=
  type d = "icon" /\ text d = label /\ confidence d = conf.

(** Six circles of radius 6, far apart. *)
Definition six_circles : list (Q * Q * Q) :=
  [(10, 10, 6); (40, 10, 6); (70, 10, 6); (100, 10, 6); (130, 10, 6); (160, 10, 6)]%Q.

(** The body [{"name": name, "template": encoded}]. *)
Definition offer (name encoded : string) : gmap string json :=
  {[ "name" := JStr name; "template" := JStr encoded ]}.

(** [ICON_TEMPLATES] after serving the given registration requests in
    order; the registry is empty when the server starts. *)
Definition registry_after `{CV : cv2} (requests : list (gmap string json))
  : gmap string ndarray :=
  foldl (fun registry data => fst (display_register_icon registry data)) ∅ requests.

(** ** [display_find]: text search over the OCR table *)

(** [str.isspace] on ASCII characters. *)
Definition is_space (c : ascii) : bool :=
  let n := N_of_ascii c in
  (((9 <=? n) && (n <=? 13)) || ((28 <=? n) && (n <=? 32)))%N.

Fixpoint lstrip (s : string) : string :=
  match s with
  | EmptyString => EmptyString
  | String c s' => if is_space c then lstrip s' else s
  end.

(** [s.strip()] *)
Definition strip (s : string) : string := String.rev (lstrip (String.rev (lstrip s))).

(** [needle in hay] for strings. *)
Fixpoint contains (needle hay : string) : bool :=
  String.prefix needle hay
  || match hay with
     | EmptyString => false
     | String _ hay' => contains needle hay'
     end.

(** [l[i]] *)
Definition index {A : Type} (l : list A) (i : nat) : result A :=
  match l !! i with
  | Some a => Ok a
  | None => Raise "IndexError: list index out of range"
  end.

(** The table [pytesseract.image_to_data(..., output_type=Output.DICT)]
    returns: one entry per recognized word in each column. *)
Record ocr : Type := mkOcr {
  ocr_text : list string;
  ocr_left : list Z;
  ocr_top : list Z;
  ocr_width : list Z;
  ocr_height : list Z;
  ocr_conf : list Q
}.

Class pytesseract : Type := {
  image_to_data : color -> result ocr
}.

(** The body of [for i, text in enumerate(ocr_data['text'])]: the element
    it appends, if any. *)
Definition find_element (query : json) (ocr_data : ocr) (i : nat) (word : string)
  : result (option Detection) :=
  if negb (String.eqb (strip word) "") then
    q ← json_lower query;
    if contains q (lower word) then
      bx ← index (ocr_left ocr_data) i;
      b_y ← index (ocr_top ocr_data) i;
      w ← index (ocr_width ocr_data) i;
      h ← index (ocr_height ocr_data) i;
      conf ← index (ocr_conf ocr_data) i;
      if Qltb 30 conf then
        Ok (Some {| type := "text"; text := word;
                    bounds := {| x := py_int bx; y := py_int b_y;
                                 width := py_int w; height := py_int h |};
                    confidence := (conf / 100)%Q |})
      else Ok None
    else Ok None
  else Ok None.

Fixpoint find_loop (query : json) (ocr_data : ocr) (i : nat) (words : list string)
    (elements : list Detection) : result (list Detection) :=
  match words with
  | [] => Ok elements
  | word :: words' =>
      found ← find_element query ocr_data i word;
      find_loop query ocr_data (S i) words'
                match found with
                | Some element => elements ++ [element]
                | None => elements
                end
  end.

(** The JSON array [display_find] answers with, from the decoded body and
    the captured screenshot; a failure of the OCR part gives the empty
    array.  (The outer [try] covers decoding the request and capturing
    the screen.) *)
Definition display_find `{OCR : pytesseract} (screenshot : color) (data : gmap string json)
  : list Detection :=
  let query := get data "query" (JStr "") in
  match (ocr_data ← image_to_data screenshot;
         find_loop query ocr_data 0 (ocr_text ocr_data) []) with
  | Ok elements => elements
  | Raise _ => []
  end.

(** An element made from row [i] of the table for the query [q]. *)
Definition from_row (q : string) (ocr_data : ocr) (i : nat) (d : Detection) : Prop :=
  exists bx b_y w h conf,
    ocr_text ocr_data !! i = Some (text d)
    /\ ocr_left ocr_data !! i = Some bx /\ ocr_top ocr_data !! i = Some b_y
    /\ ocr_width ocr_data !! i = Some w /\ ocr_height ocr_data !! i = Some h
    /\ ocr_conf ocr_data !! i = Some conf
    /\ d = {| type := "text"; text := text d; bounds := box bx b_y w h;
              confidence := (conf / 100)%Q |}
    /\ strip (text d) <> ""
    /\ (exists pre post, lower (text d) = pre +:+ lower q +:+ post)
    /\ (30 < conf)%Q.

(** A scripted OCR engine. *)
Definition scripted_ocr (table : result ocr) : pytesseract :=
  {| image_to_data := fun _ => table |}.

Definition three_words : ocr :=
  {| ocr_text := ["File"; "  "; "Profile"];
     ocr_left := [10; 0; 40]; ocr_top := [5; 0; 5];
     ocr_width := [30; 0; 60]; ocr_height := [12; 0; 12];
     ocr_conf := [96; -1; 25]%Q |}.

(** ** [os_selected_text]: the clipboard trick *)

(** The clipboard is a string.  Every step of the handler can fail:
    [import_error] is the exception, if any, of [import pyperclip];
    [paste_error n] is the exception, if any, of the handler's [n]-th
    [pyperclip.paste()] (which otherwise returns the clipboard);
    [copy_failure text clipboard] is [None] when [pyperclip.copy(text)]
    succeeds (the clipboard is then [text]), or the clipboard it leaves and
    its exception; [hotkey_ctrl_c clipboard] is the clipboard when the
    handler goes on after [pyautogui.hotkey('ctrl', 'c')] and the sleep,
    or when it catches the exception of the key press, with that
    exception if any. *)
Class desktop : Type := {
  import_error : option string;
  paste_error : nat -> option string;
  copy_failure : string -> string -> option (string * string);
  hotkey_ctrl_c : string -> string * option string
}.

(** The body of the response: [{'success': True, 'text': ...}] or
    [{'success': False, 'error': ..., 'text': None}]. *)
Inductive SelectedResponse : Type :=
| SelectedOk (selected : string)
| SelectedError (e : string).

(** The clipboard after the request, and the response. *)
Definition os_selected_text `{OS : desktop} (clipboard : string) : string * SelectedResponse :=
  match import_error with
  | Some e => (clipboard, SelectedError e)
  | None =>
  match paste_error 0 with
  | Some e => (clipboard, SelectedError e)
  | None =>
      let original := clipboard in
      let '(clipboard, raised) := hotkey_ctrl_c clipboard in
      match raised with
      | Some e => (clipboard, SelectedError e)
      | None =>
          match paste_error 1 with
          | Some e => (clipboard, SelectedError e)
          | None =>
              let selected := clipboard in
              let response :=
                SelectedOk (if negb (String.eqb selected original) then selected else "") in
              if negb (String.eqb original selected) then
                match copy_failure original clipboard with
                | Some (remains, e) => (remains, SelectedError e)
                | None => (original, response)
                end
              else (clipboard, response)
          end
      end
  end
  end.

(** A desktop on which nothing fails and the key press puts [selection] on
    the clipboard. *)
Definition working_desktop (selection : string) : desktop :=
  {| import_error := None;
     paste_error := fun _ => None;
     copy_failure := fun _ _ => None;
     hotkey_ctrl_c := fun _ => (selection, None) |}.

(** A desktop on which the key press puts [selection] on the clipboard and
    then raises. *)
Definition failing_desktop (selection : string) : desktop :=
  {| import_error := None;
     paste_error := fun _ => None;
     copy_failure := fun _ _ => None;
     hotkey_ctrl_c := fun _ => (selection, Some "FailSafeException") |}.
(** * Properties *)

(** ** Comparisons on floats *)

Lemma Qltb_lt (a b : Q) : Qltb a b = true <-> (a < b)%Q.
Proof.
  unfold Qltb. rewrite negb_true_iff. split.
  - intros H. apply Qnot_le_lt. intros Hle.
    apply Qle_bool_iff in Hle. congruence.
  - intros H. destruct (Qle_bool b a) eqn:E; [|reflexivity].
    apply Qle_bool_iff in E. exfalso. exact (Qlt_not_le _ _ H E).
Qed.

Lemma Qltb_ge (a b : Q) : Qltb a b = false <-> (b <= a)%Q.
Proof.
  unfold Qltb. rewrite negb_false_iff. apply Qle_bool_iff.
Qed.

(** ** The stable sort *)

Section SortedFacts.
Context {A : Type} (before : A -> A -> bool).

Lemma sorted_insert_perm (a : A) (l : list A) : sorted_insert before a l ≡ₚ a :: l.
Proof.
  induction l as [|b l IH]; simpl; [done|].
  destruct (before b a); [|done].
  rewrite IH. apply Permutation_swap.
Qed.

Lemma sorted_perm (l : list A) : sorted before l ≡ₚ l.
Proof.
  induction l as [|a l IH]; simpl; [done|].
  rewrite sorted_insert_perm. by rewrite IH.
Qed.

Lemma elem_of_sorted (a : A) (l : list A) : a ∈ sorted before l <-> a ∈ l.
Proof. by rewrite sorted_perm. Qed.

(** Elements that never sort ahead of one another keep their order. *)
Section Stable.
Context (P : A -> Prop) `{!forall a, Decision (P a)}.
Hypothesis tied : forall a b, P a -> P b -> before a b = false.

Lemma filter_sorted_insert (a : A) (l : list A) :
  filter P (sorted_insert before a l) = filter P (a :: l).
Proof.
  induction l as [|b l IH]; simpl; [done|].
  destruct (before b a) eqn:E; [|done].
  rewrite (filter_cons P b), IH, !(filter_cons P a), (filter_cons P b).
  destruct (decide (P b)) as [Hb|Hb]; [|done].
  destruct (decide (P a)) as [Ha|Ha]; [|done].
  rewrite (tied b a Hb Ha) in E. discriminate.
Qed.

Lemma filter_sorted (l : list A) : filter P (sorted before l) = filter P l.
Proof.
  induction l as [|a l IH]; simpl; [done|].
  rewrite filter_sorted_insert, !filter_cons, IH. done.
Qed.
End Stable.

(** The output is ordered: no element sorts strictly ahead of an
    earlier one. *)
Section Ordered.
Let le (a b : A) : Prop := before b a = false.
Hypothesis asym : forall a b, before a b = true -> before b a = false.
Hypothesis le_trans : forall a b c, le a b -> le b c -> le a c.

Lemma sorted_insert_ordered (a : A) (l : list A) :
  StronglySorted le l -> StronglySorted le (sorted_insert before a l).
Proof.
  induction 1 as [|b l Hl IH Hb]; simpl.
  - repeat constructor.
  - destruct (before b a) eqn:E.
    + constructor; [done|].
      rewrite Forall_forall. intros c Hc.
      rewrite sorted_insert_perm in Hc.
      apply elem_of_cons in Hc as [->|Hc].
      * apply asym. exact E.
      * rewrite Forall_forall in Hb. by apply Hb.
    + constructor; [by constructor|].
      constructor; [exact E|].
      eapply Forall_impl; [exact Hb|].
      intros c Hc. eapply le_trans; [exact E|exact Hc].
Qed.

Lemma sorted_ordered (l : list A) : StronglySorted le (sorted before l).
Proof.
  induction l as [|a l IH]; simpl; [constructor|].
  by apply sorted_insert_ordered.
Qed.
End Ordered.
End SortedFacts.

(** Sublists of ordered lists are ordered, and filtering respects sublists. *)
Lemma StronglySorted_sublist {A : Type} (R : relation A) (l k : list A) :
  l `sublist_of` k -> StronglySorted R k -> StronglySorted R l.
Proof.
  induction 1 as [|a l k Hs IH|a l k Hs IH]; intros Hk.
  - constructor.
  - apply StronglySorted_inv in Hk as [Hk Ha]. constructor; [by apply IH|].
    rewrite Forall_forall in Ha |- *. intros b Hb. apply Ha.
    by apply (sublist_subseteq _ _ Hs).
  - apply StronglySorted_inv in Hk as [Hk _]. by apply IH.
Qed.

Lemma filter_sublist {A : Type} (P : A -> Prop) `{!forall a, Decision (P a)} (l k : list A) :
  l `sublist_of` k -> filter P l `sublist_of` filter P k.
Proof.
  induction 1 as [|a l k Hs IH|a l k Hs IH]; rewrite ?filter_cons.
  - constructor.
  - destruct (decide (P a)); [by constructor|done].
  - destruct (decide (P a)); [by constructor|done].
Qed.

Lemma confidence_sorted (l : list Detection) :
  StronglySorted (fun a b => (confidence b <= confidence a)%Q) (sorted by_confidence_desc l).
Proof.
  assert (H : StronglySorted (fun a b => by_confidence_desc b a = false)
                (sorted by_confidence_desc l)).
  { apply sorted_ordered.
    - intros a b Hab. unfold by_confidence_desc in *.
      apply Qltb_lt in Hab. apply Qltb_ge. by apply Qlt_le_weak.
    - intros a b c Hab Hbc. unfold by_confidence_desc in *.
      apply Qltb_ge in Hab, Hbc. apply Qltb_ge. by eapply Qle_trans. }
  induction H as [|a k Hk IH Ha]; constructor; [done|].
  eapply Forall_impl; [exact Ha|].
  intros b Hb. by apply Qltb_ge in Hb.
Qed.

Lemma confidence_stable (c : Q) (l : list Detection) :
  filter (fun d => confidence d == c)%Q (sorted by_confidence_desc l)
  = filter (fun d => confidence d == c)%Q l.
Proof.
  apply filter_sorted. intros a b Ha Hb.
  unfold by_confidence_desc. apply Qltb_ge. rewrite Ha, Hb. apply Qle_refl.
Qed.

(** ** Overlap suppression *)

Lemma IoU_sym (b1 b2 : Bounds) : IoU b1 b2 = IoU b2 b1.
Proof.
  unfold IoU.
  rewrite (Z.max_comm (to_Z (x b1))), (Z.max_comm (to_Z (y b1))).
  rewrite (Z.min_comm (to_Z (x b1) + _)), (Z.min_comm (to_Z (y b1) + _)).
  rewrite (Z.add_comm (to_Z (width b1) * _)). reflexivity.
Qed.

(** The loop body breaks exactly on an IoU above the threshold; for boxes
    that do not intersect it makes no comparison at all. *)
Lemma overlaps_IoU (det kept : Detection) (t : Q) :
  (0 <= t)%Q ->
  overlaps det kept t = false <-> (IoU (bounds det) (bounds kept) <= t)%Q.
Proof.
  intros Ht. unfold overlaps, IoU. cbv zeta.
  destruct (_ && _); [apply Qltb_ge|]. split; [intros _; exact Ht|reflexivity].
Qed.

Lemma should_keep_Forall (det : Detection) (keep : list Detection) (t : Q) :
  should_keep det keep t = true <-> Forall (fun kept => overlaps det kept t = false) keep.
Proof.
  induction keep as [|kept keep IH]; simpl.
  - split; [constructor|done].
  - destruct (overlaps det kept t) eqn:E.
    + split; [done|]. intros H. apply Forall_cons in H as [H _]. congruence.
    + rewrite IH. split; [intros H; by constructor|].
      intros H. by apply Forall_cons in H as [_ H].
Qed.

Lemma suppress_loop_app (l1 l2 keep : list Detection) (t : Q) :
  suppress_loop (l1 ++ l2) keep t = suppress_loop l2 (suppress_loop l1 keep t) t.
Proof.
  revert keep. induction l1 as [|det l1 IH]; intros keep; simpl; [done|].
  destruct (should_keep det keep t); apply IH.
Qed.

Lemma suppress_loop_sublist (dets keep : list Detection) (t : Q) :
  suppress_loop dets keep t `sublist_of` keep ++ dets.
Proof.
  revert keep. induction dets as [|det dets IH]; intros keep; simpl.
  - by rewrite app_nil_r.
  - destruct (should_keep det keep t).
    + specialize (IH (keep ++ [det])). by rewrite <- app_assoc in IH.
    + etrans; [apply IH|]. apply sublist_app; [done|]. by apply sublist_cons.
Qed.

Lemma suppress_loop_apart (dets keep : list Detection) (t : Q) :
  StronglySorted (apart t) keep -> StronglySorted (apart t) (suppress_loop dets keep t).
Proof.
  revert keep. induction dets as [|det dets IH]; intros keep Hk; simpl; [done|].
  destruct (should_keep det keep t) eqn:E; [|by apply IH].
  apply IH. apply StronglySorted_app_2; [|done|repeat constructor].
  intros a b Ha Hb. apply list_elem_of_singleton in Hb as ->.
  apply should_keep_Forall in E. rewrite Forall_forall in E. by apply E.
Qed.

Lemma remove_overlapping_detections_loop (dets : list Detection) (t : Q) :
  remove_overlapping_detections dets t = suppress_loop (sorted by_confidence_desc dets) [] t.
Proof. unfold remove_overlapping_detections. by destruct dets. Qed.

Lemma remove_overlapping_detections_sublist (dets : list Detection) (t : Q) :
  remove_overlapping_detections dets t `sublist_of` sorted by_confidence_desc dets.
Proof.
  rewrite remove_overlapping_detections_loop. apply (suppress_loop_sublist _ []).
Qed.

Lemma elem_of_remove_overlapping_detections (d : Detection) (dets : list Detection) (t : Q) :
  d ∈ remove_overlapping_detections dets t -> d ∈ dets.
Proof.
  intros H. apply (elem_of_sorted by_confidence_desc).
  by apply (sublist_subseteq _ _ (remove_overlapping_detections_sublist dets t)).
Qed.

Lemma StronglySorted_lookup {A : Type} (R : relation A) (l : list A) (i j : nat) (a b : A) :
  StronglySorted R l -> (i < j)%nat -> l !! i = Some a -> l !! j = Some b -> R a b.
Proof.
  intros Hl. revert i j. induction Hl as [|c l Hl IH Hc]; intros i j Hij Hi Hj; [done|].
  destruct j as [|j]; [lia|]. simpl in Hj. destruct i as [|i]; simpl in Hi.
  - injection Hi as ->. rewrite Forall_forall in Hc. apply Hc.
    by eapply list_elem_of_lookup_2.
  - apply (IH i j); [lia|done..].
Qed.

Example suppress_drops_overlap :
  remove_overlapping_detections
    [hit "a" (box 4 0 16 10) 0.8; hit "a" (box 0 0 16 10) 0.9; hit "a" (box 40 40 16 10) 0.8] 0.5
  = [hit "a" (box 0 0 16 10) 0.9; hit "a" (box 40 40 16 10) 0.8].
Proof. reflexivity. Qed.

Example suppress_keeps_input_order_on_ties :
  remove_overlapping_detections
    [hit "first" (box 0 0 8 8) 0.6; hit "top" (box 50 0 8 8) 0.9; hit "second" (box 20 0 8 8) 0.6] 0.5
  = [hit "top" (box 50 0 8 8) 0.9; hit "first" (box 0 0 8 8) 0.6; hit "second" (box 20 0 8 8) 0.6].
Proof. reflexivity. Qed.

Example IoU_shifted_boxes : (IoU (box 0 0 16 10) (box 4 0 16 10) == 0.6)%Q.
Proof. reflexivity. Qed.

(** C3, as stated, fails for a negative threshold: two boxes that do not
    intersect are both kept, although their IoU, 0, is above the
    threshold. *)
Lemma suppress_negative_threshold_keeps_pair :
  remove_overlapping_detections
    [hit "a" (box 0 0 10 10) 0.9; hit "a" (box 20 20 10 10) 0.8] (-0.5)
  = [hit "a" (box 0 0 10 10) 0.9; hit "a" (box 20 20 10 10) 0.8]
  /\ ~ (IoU (box 0 0 10 10) (box 20 20 10 10) <= -0.5)%Q.
Proof.
  split; [reflexivity|]. intros H. vm_compute in H. apply H. reflexivity.
Qed.

(** C3 (amended): for every input list and every threshold that is not
    negative, any two detections of the output of
    [remove_overlapping_detections] have IoU at most the threshold; and at
    each position of the confidence-sorted input the candidate is appended
    to the kept list exactly when its IoU with every detection kept so far
    is at most the threshold, and is dropped otherwise.  Boxes that do not
    intersect have IoU 0. *)
Theorem suppress_no_overlap (dets : list Detection) (t : Q) :
  (0 <= t)%Q ->
  let out := remove_overlapping_detections dets t in
  (forall i j a b, (i < j)%nat -> out !! i = Some a -> out !! j = Some b ->
     (IoU (bounds a) (bounds b) <= t)%Q /\ (IoU (bounds b) (bounds a) <= t)%Q)
  /\ (forall pre det post, sorted by_confidence_desc dets = pre ++ det :: post ->
        let kept := suppress_loop pre [] t in
        out = suppress_loop post (suppress_loop [det] kept t) t
        /\ (suppress_loop [det] kept t = kept ++ [det]
            <-> forall k, k ∈ kept -> (IoU (bounds det) (bounds k) <= t)%Q)
        /\ (suppress_loop [det] kept t = kept ++ [det] \/ suppress_loop [det] kept t = kept)).
Proof.
  intros Ht out. split.
  - intros i j a b Hij Hi Hj.
    assert (H : apart t a b).
    { apply (StronglySorted_lookup _ out i j); [|done..].
      subst out. rewrite remove_overlapping_detections_loop.
      apply suppress_loop_apart. constructor. }
    apply overlaps_IoU in H; [|done]. split; [|done]. by rewrite IoU_sym.
  - intros pre det post Hsplit kept. split; [|split].
    + subst out kept. rewrite remove_overlapping_detections_loop, Hsplit.
      rewrite suppress_loop_app. apply (suppress_loop_app [det] post).
    + simpl. destruct (should_keep det kept t) eqn:E.
      * split; [|done]. intros _ k Hk.
        apply should_keep_Forall in E. rewrite Forall_forall in E.
        apply overlaps_IoU; [done|]. by apply E.
      * split.
        -- intros H. apply (f_equal length) in H. rewrite length_app in H.
           simpl in H. lia.
        -- intros H. assert (E' : should_keep det kept t = true).
           { apply should_keep_Forall, Forall_forall. intros k Hk.
             apply overlaps_IoU; [done|]. by apply H. }
           congruence.
    + simpl. destruct (should_keep det kept t); [by left|by right].
Qed.

Lemma suppress_no_overlap_witness :
  (IoU (box 0 0 16 10) (box 40 40 16 10) <= 0.5)%Q
  /\ (IoU (box 40 40 16 10) (box 0 0 16 10) <= 0.5)%Q.
Proof.
  apply (proj1 (suppress_no_overlap
                  [hit "a" (box 4 0 16 10) 0.8; hit "a" (box 0 0 16 10) 0.9;
                   hit "a" (box 40 40 16 10) 0.8]
                  0.5 ltac:(discriminate))
               0%nat 1%nat (hit "a" (box 0 0 16 10) 0.9) (hit "a" (box 40 40 16 10) 0.8));
    [lia|reflexivity|reflexivity].
Defined.

(** C4: the output of [remove_overlapping_detections] is non-increasing in
    confidence, and for every confidence value the kept detections with
    that confidence appear in the order they have in the input. *)
Theorem suppress_sorted_stable (dets : list Detection) (t : Q) :
  let out := remove_overlapping_detections dets t in
  StronglySorted (fun a b => (confidence b <= confidence a)%Q) out
  /\ forall c : Q,
       filter (fun d => confidence d == c)%Q out
       `sublist_of` filter (fun d => confidence d == c)%Q dets.
Proof.
  intros out. pose proof (remove_overlapping_detections_sublist dets t) as Hsub.
  split.
  - eapply StronglySorted_sublist; [exact Hsub|]. apply confidence_sorted.
  - intros c. rewrite <- (confidence_stable c dets). by apply filter_sublist.
Qed.

(** ** Worked examples on the scripted routines *)

Example close_two_boxes :
  let CV := scripted_cv2 [] [rect_contour 0 0 16 10; rect_contour 4 0 16 10] None None in
  display_find_icons ∅ screen (ask "Close")
  = IconsOk [hit "close" (box 0 0 16 10) 0.7; hit "close" (box 4 0 16 10) 0.7].
Proof. vm_compute. reflexivity. Qed.

Example template_hits_across_scales :
  let CV := scripted_cv2 [[0.1; 0.95]; [0.2; 0.3]]%Q [] None None in
  display_find_icons {[ "save" := patch ]} screen (ask "save")
  = IconsOk [hit "save" (box 1 0 3 3) 0.95; hit "save" (box 1 0 5 5) 0.95].
Proof. vm_compute. reflexivity. Qed.

(** ** The matcher *)

Lemma map_fmap {A B : Type} (f : A -> B) (l : list A) : map f l = f <$> l.
Proof. reflexivity. Qed.

Lemma where_xy_set (mask : list (list bool)) (px py : Z) :
  (px, py) ∈ where_xy mask ->
  0 <= px /\ 0 <= py
  /\ exists row, mask !! Z.to_nat py = Some row /\ row !! Z.to_nat px = Some true.
Proof.
  unfold where_xy. intros H.
  apply list_elem_of_In, in_concat in H as (pts & Hpts & H).
  apply list_elem_of_In, elem_of_lookup_imap in Hpts as (i & row & -> & Hrow).
  apply list_elem_of_In, list_elem_of_omap in H as ([j b] & Hjb & Hc).
  apply elem_of_lookup_imap in Hjb as (j' & b' & [= -> ->] & Hb).
  simpl in Hc. destruct b'; [|done]. injection Hc as <- <-.
  split; [lia|]. split; [lia|]. exists row. by rewrite !Nat2Z.id.
Qed.

Lemma item_elem {A : Type} (l : list A) (i : Z) (a : A) : item l i = Some a -> a ∈ l.
Proof.
  unfold item. destruct (i <? 0); [destruct (- i <=? _); [|done]|];
    apply list_elem_of_lookup_2.
Qed.

Lemma item_lookup {A : Type} (l : list A) (i : Z) : 0 <= i -> item l i = l !! Z.to_nat i.
Proof. intros Hi. unfold item. by destruct (Z.ltb_spec i 0); [lia|]. Qed.

Lemma at_yx_elem (res : list (list Q)) (py px : Z) (v : Q) :
  at_yx res py px = Ok v -> exists row, row ∈ res /\ v ∈ row.
Proof.
  unfold at_yx. destruct (item res py) as [row|] eqn:Hrow; [|done].
  destruct (item row px) as [w|] eqn:Hv; [|done]. intros [= <-].
  exists row. split; by eapply item_elem.
Qed.

Lemma each_Ok {A B : Type} (f : A -> result B) (l : list A) (out : list B) :
  each f l = Ok out -> Forall2 (fun a b => f a = Ok b) l out.
Proof.
  revert out. induction l as [|a l IH]; intros out; simpl.
  - intros [= <-]. constructor.
  - destruct (f a) as [b|e] eqn:Hb; [|done]. simpl.
    destruct (each f l) as [bs|e]; [|done]. simpl. intros [= <-].
    constructor; [done|]. by apply IH.
Qed.

Lemma each_total {A B : Type} (f : A -> result B) (l : list A) :
  Forall (fun a => exists b, f a = Ok b) l -> exists out, each f l = Ok out.
Proof.
  induction 1 as [|a l [b Hb] _ [bs Hbs]]; simpl; [by eexists|].
  rewrite Hb. simpl. rewrite Hbs. simpl. by eexists.
Qed.

Section MatcherFacts.
Context `{CV : cv2}.

Lemma ge_threshold_set (res : list (list Q)) (threshold : json) (mask : list (list bool))
    (px py : Z) :
  ge_threshold res threshold = Ok mask ->
  (px, py) ∈ where_xy mask ->
  exists t v,
    threshold_value threshold = Some t /\ at_yx res py px = Ok v
    /\ float32_ge v t = true /\ 0 <= px /\ 0 <= py.
Proof.
  unfold ge_threshold. destruct (threshold_value threshold) as [t|]; [|done].
  intros [= <-] H. apply where_xy_set in H as (Hpx & Hpy & brow & Hrow & Hb).
  rewrite map_fmap in Hrow. apply list_lookup_fmap_Some in Hrow as (row & -> & Hrow).
  rewrite map_fmap in Hb. apply list_lookup_fmap_Some in Hb as (v & Hle & Hv).
  exists t, v. unfold at_yx.
  rewrite (item_lookup res py Hpy), Hrow, (item_lookup row px Hpx), Hv. done.
Qed.

(** For a scalar threshold the points are those of the mask. *)
Lemma where_ge_scalar (res : list (list Q)) (threshold : json) :
  is_scalar threshold = true ->
  where_ge res threshold = (mask ← ge_threshold res threshold; Ok (where_xy mask)).
Proof. by destruct threshold. Qed.

Lemma threshold_value_scalar (threshold : json) (t : Q) :
  threshold_value threshold = Some t -> is_scalar threshold = true.
Proof. by destruct threshold. Qed.

Lemma match_scale_from_scale screen_gray template name threshold scale found d :
  match_scale screen_gray template name threshold scale = Ok found ->
  d ∈ found -> from_scale screen_gray template name threshold scale d.
Proof.
  unfold match_scale, from_scale. cbv zeta.
  destruct (_ || _) eqn:Hskip.
  { intros [= <-] Hd. by apply elem_of_nil in Hd. }
  apply orb_false_iff in Hskip as [H0 H1].
  apply Z.ltb_ge in H0, H1.
  destruct (where_ge _ _) as [points|e] eqn:Hpoints; [|done].
  simpl. intros Heach Hd. apply each_Ok in Heach.
  apply list_elem_of_lookup in Hd as [i Hd].
  destruct (Forall2_lookup_r _ _ _ _ _ Heach Hd) as ([px py] & Hpt & Hscore).
  simpl in Hscore.
  destruct (at_yx _ py px) as [score|e] eqn:Hat; [|done]. simpl in Hscore.
  injection Hscore as <-. simpl.
  do 8 (split; [done|]). split.
  - by eapply at_yx_elem.
  - intros Hscalar. rewrite (where_ge_scalar _ _ Hscalar) in Hpoints.
    destruct (ge_threshold _ _) as [mask|e] eqn:Hmask; [|done].
    simpl in Hpoints. injection Hpoints as <-.
    apply list_elem_of_lookup_2 in Hpt.
    destruct (ge_threshold_set _ _ _ _ _ Hmask Hpt) as (t & v & Ht & Hv & Hge & Hx & Hy).
    rewrite Hat in Hv. injection Hv as <-. by exists t.
Qed.

Lemma match_scale_skipped screen_gray template name threshold scale :
  shape0 screen_gray < shape0 (resize template scale scale)
  \/ shape1 screen_gray < shape1 (resize template scale scale) ->
  match_scale screen_gray template name threshold scale = Ok [].
Proof.
  intros H. unfold match_scale. cbv zeta.
  destruct (_ || _) eqn:Hskip; [done|].
  apply orb_false_iff in Hskip as [H0 H1]. apply Z.ltb_ge in H0, H1. lia.
Qed.

Lemma match_scale_total screen_gray template name threshold scale t :
  threshold_value threshold = Some t ->
  exists found, match_scale screen_gray template name threshold scale = Ok found.
Proof.
  intros Ht. unfold match_scale. cbv zeta. destruct (_ || _); [by eexists|].
  rewrite (where_ge_scalar _ _ (threshold_value_scalar _ _ Ht)).
  destruct (ge_threshold _ _) as [mask|e] eqn:Hmask;
    [|unfold ge_threshold in Hmask; by rewrite Ht in Hmask].
  simpl. apply each_total, Forall_forall. intros [px py] Hpt.
  destruct (ge_threshold_set _ _ _ _ _ Hmask Hpt) as (_ & v & _ & Hv & _).
  simpl. rewrite Hv. simpl. by eexists.
Qed.

Lemma scale_loop_from_scale screen_gray template name threshold todo results out d :
  scale_loop screen_gray template name threshold todo results = Ok out ->
  d ∈ out ->
  d ∈ results
  \/ exists scale, scale ∈ todo /\ from_scale screen_gray template name threshold scale d.
Proof.
  revert results. induction todo as [|scale todo IH]; intros results; simpl.
  - intros [= <-] Hd. by left.
  - destruct (match_scale _ _ _ _ scale) as [found|e] eqn:Hfound; [|done].
    simpl. intros Hout Hd. destruct (IH _ Hout Hd) as [Hin|(s & Hs & Hfrom)].
    + apply elem_of_app in Hin as [Hin|Hin]; [by left|]. right.
      exists scale. split; [left|]. by eapply match_scale_from_scale.
    + right. exists s. split; [by right|done].
Qed.

Lemma scale_loop_total screen_gray template name threshold todo results t :
  threshold_value threshold = Some t ->
  exists out, scale_loop screen_gray template name threshold todo results = Ok out.
Proof.
  intros Ht. revert results. induction todo as [|scale todo IH]; intros results; simpl.
  - eauto.
  - destruct (match_scale_total screen_gray template name threshold scale t Ht)
      as [found ->]. simpl. apply IH.
Qed.

Lemma find_template_matches_from_scale screen_gray template name threshold out d :
  find_template_matches screen_gray template name threshold = Ok out ->
  d ∈ out ->
  exists scale,
    scale ∈ scales /\ from_scale screen_gray (grayscale template) name threshold scale d.
Proof.
  unfold find_template_matches. cbv zeta.
  destruct (scale_loop _ _ _ _ _ _) as [results|e] eqn:Hloop; [|done].
  simpl. intros [= <-] Hd. apply elem_of_remove_overlapping_detections in Hd.
  destruct (scale_loop_from_scale _ _ _ _ _ _ _ _ Hloop Hd) as [Hnil|H]; [|done].
  by apply elem_of_nil in Hnil.
Qed.

Lemma find_template_matches_total screen_gray template name threshold t :
  threshold_value threshold = Some t ->
  exists out, find_template_matches screen_gray template name threshold = Ok out.
Proof.
  intros Ht. unfold find_template_matches. cbv zeta.
  destruct (scale_loop_total screen_gray (grayscale template) name threshold scales [] t Ht)
    as [results ->]. simpl. eauto.
Qed.
End MatcherFacts.

(** C5: [find_template_matches] never returns a detection wider or taller
    than the screen.  A scale in [0.8, 0.9, 1.0, 1.1, 1.2] whose resized
    template exceeds the screen in either dimension contributes nothing;
    every returned detection has the width and height of the template
    resized by one of the five scales, and that shape fits the screen; and
    with a numeric threshold the matcher does return a list. *)
Theorem matcher_scale_bound `{CV : cv2} (screen_gray : gray) (template : ndarray)
    (name : string) (threshold : json) :
  (forall scale,
      shape0 screen_gray < shape0 (resize (grayscale template) scale scale)
      \/ shape1 screen_gray < shape1 (resize (grayscale template) scale scale) ->
      match_scale screen_gray (grayscale template) name threshold scale = Ok [])
  /\ (forall out,
        find_template_matches screen_gray template name threshold = Ok out ->
        Forall (fun d =>
                  exists scale,
                    scale ∈ scales
                    /\ to_Z (width (bounds d)) = shape1 (resize (grayscale template) scale scale)
                    /\ to_Z (height (bounds d)) = shape0 (resize (grayscale template) scale scale)
                    /\ to_Z (width (bounds d)) <= shape1 screen_gray
                    /\ to_Z (height (bounds d)) <= shape0 screen_gray) out)
  /\ (forall t, threshold_value threshold = Some t ->
        exists out, find_template_matches screen_gray template name threshold = Ok out).
Proof.
  split; [|split].
  - intros scale. apply match_scale_skipped.
  - intros out Hout. apply Forall_forall. intros d Hd.
    destruct (find_template_matches_from_scale _ _ _ _ _ _ Hout Hd)
      as (scale & Hscale & _ & _ & Hw & Hh & Hfw & Hfh & _).
    exists scale. rewrite Hw, Hh. done.
  - intros t. apply find_template_matches_total.
Qed.

Example matcher_skips_large_scales :
  let CV := scripted_cv2 [[0.9]]%Q [] None None in
  find_template_matches (blank 0 4 4) patch "save" (JNum 0.8)
  = Ok [hit "save" (box 0 0 3 3) 0.9].
Proof. vm_compute. reflexivity. Qed.

(** ** The heuristic detectors *)

Lemma Forall_omap_Some {A B : Type} (f : A -> option B) (P : B -> Prop) (l : list A) :
  (forall a b, f a = Some b -> P b) -> Forall P (omap f l).
Proof.
  intros H. apply Forall_forall. intros b Hb.
  apply list_elem_of_omap in Hb as (a & _ & Hab). by eapply H.
Qed.

(** Case analysis on the tests of a candidate filter. *)
Ltac candidate :=
  intros; repeat case_match; simplify_eq; repeat split.

Section DetectorFacts.
Context `{CV : cv2}.

Lemma close_results_labelled screen_rgb :
  Forall (fun d => labelled "close" 0.7 d /\ serializable d = true) (close_results screen_rgb).
Proof. apply Forall_omap_Some. unfold close_candidate. candidate. Qed.

Lemma minimize_results_labelled screen_gray :
  Forall (labelled "minimize" 0.6) (minimize_results screen_gray).
Proof.
  unfold minimize_results. cbv zeta. destruct (HoughLinesP _ _ _ _); [|constructor].
  apply Forall_omap_Some. unfold minimize_candidate. candidate.
Qed.

Lemma maximize_results_labelled screen_gray :
  Forall (fun d => labelled "maximize" 0.6 d /\ serializable d = true)
         (maximize_results screen_gray).
Proof. apply Forall_omap_Some. unfold maximize_candidate. candidate. Qed.

Lemma checkbox_results_labelled screen_gray :
  Forall (fun d => labelled "checkbox" 0.5 d /\ serializable d = true)
         (checkbox_results screen_gray).
Proof. apply Forall_omap_Some. unfold checkbox_candidate. candidate. Qed.

Lemma radio_results_labelled screen_gray :
  Forall (fun d => labelled "radio" 0.6 d /\ serializable d = true) (radio_results screen_gray).
Proof.
  unfold radio_results. cbv zeta. destruct (HoughCircles _ _ _ _ _ _); [|constructor].
  apply Forall_forall. intros d Hd. rewrite map_fmap in Hd.
  apply list_elem_of_fmap in Hd as ([[cx cy] r] & -> & _). repeat split.
Qed.

Lemma search_results_from_candidates screen_gray results d :
  search_results screen_gray = Ok results -> d ∈ results ->
  exists c, search_candidate screen_gray c = Ok (Some d).
Proof.
  unfold search_results. cbv zeta.
  destruct (HoughCircles _ _ _ _ _ _) as [circles|];
    [|intros [= <-] Hd; by apply elem_of_nil in Hd].
  destruct (each _ _) as [found|e] eqn:Heach; [|done]. simpl. intros [= <-] Hd.
  apply list_elem_of_omap in Hd as (o & Ho & ->).
  apply each_Ok in Heach. apply list_elem_of_lookup in Ho as [i Ho].
  destruct (Forall2_lookup_r _ _ _ _ _ Heach Ho) as (c & _ & Hc). by exists c.
Qed.

Lemma search_results_labelled screen_gray :
  Forall (fun d => labelled "search" 0.6 d /\ serializable d = true)
         (returned (search_results screen_gray)).
Proof.
  destruct (search_results screen_gray) as [results|e] eqn:Hresults; [|constructor].
  apply Forall_forall. intros d Hd.
  destruct (search_results_from_candidates _ _ _ Hresults Hd) as [[[cx cy] r] Hc].
  revert Hc. unfold search_candidate. cbv zeta. candidate.
Qed.

Lemma detect_search_icons_take screen_gray :
  returned (detect_search_icons screen_gray) = take 5 (returned (search_results screen_gray)).
Proof. unfold detect_search_icons. by destruct (search_results screen_gray). Qed.

Lemma menu_triples_labelled horizontal_lines :
  Forall (fun d => labelled "menu" 0.7 d /\ serializable d = true)
         (menu_triples horizontal_lines).
Proof.
  induction horizontal_lines as [|l1 rest IH]; [constructor|].
  destruct rest as [|l2 [|l3 rest]]; [constructor..|].
  cbn [menu_triples]. destruct (menu_candidate l1 l2 l3) as [d|] eqn:Hd; [|exact IH].
  constructor; [|exact IH]. revert Hd. unfold menu_candidate. candidate.
Qed.

Lemma menu_results_labelled screen_gray :
  Forall (fun d => labelled "menu" 0.7 d /\ serializable d = true) (menu_results screen_gray).
Proof.
  unfold menu_results. cbv zeta. destruct (HoughLinesP _ _ _ _); [|constructor].
  apply menu_triples_labelled.
Qed.
End DetectorFacts.

(** ** The dispatcher *)

Section DispatchFacts.
Context `{CV : cv2}.

(** The request reaches at most one detector, the first whose alias list
    holds the name. *)
Lemma detect_common_ui_elements_cases screen_gray screen_rgb icon_name threshold :
  let found := detect_common_ui_elements screen_gray screen_rgb icon_name threshold in
  (in_names icon_name ["close"; "x"; "fermer"] = true
   /\ found = Ok (detect_close_buttons screen_gray screen_rgb))
  \/ (in_names icon_name ["minimize"; "minimiser"; "_"; "moins"] = true
      /\ found = Ok (detect_minimize_buttons screen_gray screen_rgb))
  \/ (in_names icon_name ["maximize"; "maximiser"; "agrandir"; "square"] = true
      /\ found = Ok (detect_maximize_buttons screen_gray screen_rgb))
  \/ (in_names icon_name ["checkbox"; "check"; "case a cocher"] = true
      /\ found = Ok (detect_checkboxes screen_gray))
  \/ (in_names icon_name ["radio"; "radio button"; "bouton radio"] = true
      /\ found = Ok (detect_radio_buttons screen_gray))
  \/ (in_names icon_name ["search"; "recherche"; "loupe"; "magnifying glass"] = true
      /\ found = detect_search_icons screen_gray)
  \/ (in_names icon_name ["menu"; "hamburger"; "trois lignes"] = true
      /\ found = Ok (detect_hamburger_menu screen_gray))
  \/ (recognized icon_name = false /\ found = Ok []).
Proof.
  unfold detect_common_ui_elements. cbv zeta.
  destruct (in_names icon_name ["close"; _; _]) eqn:E1; [by left|right].
  destruct (in_names icon_name ["minimize"; _; _; _]) eqn:E2; [by left|right].
  destruct (in_names icon_name ["maximize"; _; _; _]) eqn:E3; [by left|right].
  destruct (in_names icon_name ["checkbox"; _; _]) eqn:E4; [by left|right].
  destruct (in_names icon_name ["radio"; _; _]) eqn:E5; [by left|right].
  destruct (in_names icon_name ["search"; _; _; _]) eqn:E6; [by left|right].
  destruct (in_names icon_name ["menu"; _; _]) eqn:E7; [by left|right].
  split; [|done]. unfold recognized, alias_groups. cbn [existsb snd].
  by rewrite E1, E2, E3, E4, E5, E6, E7.
Qed.

(** A property of all seven detectors' results holds of the dispatcher's. *)
Lemma detect_common_ui_elements_Forall (P : Detection -> Prop)
    screen_gray screen_rgb icon_name threshold :
  (forall label conf d, labelled label conf d ->
      In (label, conf) [("close", 0.7); ("minimize", 0.6); ("maximize", 0.6);
                        ("checkbox", 0.5); ("radio", 0.6); ("search", 0.6);
                        ("menu", 0.7)]%Q ->
      P d) ->
  Forall P (returned (detect_common_ui_elements screen_gray screen_rgb icon_name threshold)).
Proof.
  intros HP.
  destruct (detect_common_ui_elements_cases screen_gray screen_rgb icon_name threshold)
    as [[_ ->]|[[_ ->]|[[_ ->]|[[_ ->]|[[_ ->]|[[_ ->]|[[_ ->]|[_ ->]]]]]]]];
    [| | | | | | |constructor]; rewrite ?detect_search_icons_take; apply Forall_take.
  - eapply Forall_impl; [apply close_results_labelled|].
    intros d [Hd _]. eapply HP; [exact Hd|]. simpl. tauto.
  - eapply Forall_impl; [apply minimize_results_labelled|].
    intros d Hd. eapply HP; [exact Hd|]. simpl. tauto.
  - eapply Forall_impl; [apply maximize_results_labelled|].
    intros d [Hd _]. eapply HP; [exact Hd|]. simpl. tauto.
  - eapply Forall_impl; [apply checkbox_results_labelled|].
    intros d [Hd _]. eapply HP; [exact Hd|]. simpl. tauto.
  - eapply Forall_impl; [apply radio_results_labelled|].
    intros d [Hd _]. eapply HP; [exact Hd|]. simpl. tauto.
  - eapply Forall_impl; [apply search_results_labelled|].
    intros d [Hd _]. eapply HP; [exact Hd|]. simpl. tauto.
  - eapply Forall_impl; [apply menu_results_labelled|].
    intros d [Hd _]. eapply HP; [exact Hd|]. simpl. tauto.
Qed.

(** Only the minimize detector hands numpy integers to the encoder. *)
Lemma detect_common_ui_elements_serializable screen_gray screen_rgb icon_name threshold :
  in_names icon_name ["minimize"; "minimiser"; "_"; "moins"] = false ->
  Forall (fun d => serializable d = true)
         (returned (detect_common_ui_elements screen_gray screen_rgb icon_name threshold)).
Proof.
  intros Hmin.
  destruct (detect_common_ui_elements_cases screen_gray screen_rgb icon_name threshold)
    as [[_ ->]|[[E _]|[[_ ->]|[[_ ->]|[[_ ->]|[[_ ->]|[[_ ->]|[_ ->]]]]]]]];
    [|congruence| | | | | |constructor]; rewrite ?detect_search_icons_take; apply Forall_take.
  - eapply Forall_impl; [apply close_results_labelled|]. by intros d [_ Hd].
  - eapply Forall_impl; [apply maximize_results_labelled|]. by intros d [_ Hd].
  - eapply Forall_impl; [apply checkbox_results_labelled|]. by intros d [_ Hd].
  - eapply Forall_impl; [apply radio_results_labelled|]. by intros d [_ Hd].
  - eapply Forall_impl; [apply search_results_labelled|]. by intros d [_ Hd].
  - eapply Forall_impl; [apply menu_results_labelled|]. by intros d [_ Hd].
Qed.

(** Every detector but the search one returns a list. *)
Lemma detect_common_ui_elements_total screen_gray screen_rgb icon_name threshold :
  in_names icon_name ["search"; "recherche"; "loupe"; "magnifying glass"] = false ->
  exists found,
    detect_common_ui_elements screen_gray screen_rgb icon_name threshold = Ok found.
Proof.
  intros Hsearch.
  destruct (detect_common_ui_elements_cases screen_gray screen_rgb icon_name threshold)
    as [[_ ->]|[[_ ->]|[[_ ->]|[[_ ->]|[[_ ->]|[[E _]|[[_ ->]|[_ ->]]]]]]]];
    try (by eexists). congruence.
Qed.

(** The label written for each alias. *)
Lemma alias_labels screen_gray screen_rgb threshold :
  Forall (fun group =>
            Forall (fun alias =>
                      Forall (fun d => text d = fst group)
                             (returned (detect_common_ui_elements screen_gray screen_rgb
                                                                  alias threshold)))
                   (snd group))
         alias_groups.
Proof.
  unfold alias_groups.
  repeat first [apply Forall_nil_2 | apply Forall_cons_2]; cbn [fst snd];
    unfold detect_common_ui_elements;
    repeat match goal with
           | |- context [in_names ?a ?l] =>
               let b := eval vm_compute in (in_names a l) in
               change (in_names a l) with b; cbv iota
           end;
    rewrite ?detect_search_icons_take; cbn [returned];
    apply Forall_take.
  all: first
    [ eapply Forall_impl; [apply close_results_labelled|]; by intros d [(_ & Hd & _) _]
    | eapply Forall_impl; [apply minimize_results_labelled|]; by intros d (_ & Hd & _)
    | eapply Forall_impl; [apply maximize_results_labelled|]; by intros d [(_ & Hd & _) _]
    | eapply Forall_impl; [apply checkbox_results_labelled|]; by intros d [(_ & Hd & _) _]
    | eapply Forall_impl; [apply radio_results_labelled|]; by intros d [(_ & Hd & _) _]
    | eapply Forall_impl; [apply search_results_labelled|]; by intros d [(_ & Hd & _) _]
    | eapply Forall_impl; [apply menu_results_labelled|]; by intros d [(_ & Hd & _) _] ].
Qed.
End DispatchFacts.

(** ** The detection handler *)

Lemma json_response_serializable (found : list Detection) :
  Forall (fun d => serializable d = true) found -> json_response found = Ok found.
Proof.
  intros H. unfold json_response.
  assert (E : forallb serializable found = true); [|by rewrite E].
  apply forallb_forall. intros d Hd. rewrite Forall_forall in H.
  by apply H, list_elem_of_In.
Qed.

Lemma icons_respond_Forall (P : Detection -> Prop) (found : list Detection) :
  Forall P found -> Forall P (icons (respond (json_response found))).
Proof.
  intros H. unfold json_response. destruct (forallb _ _); simpl; [done|constructor].
Qed.

Lemma icons_respond_returned_Forall (P : Detection -> Prop) (r : result (list Detection)) :
  Forall P (returned r) ->
  Forall P (icons (respond (found ← r; json_response found))).
Proof.
  destruct r as [found|e]; simpl; [apply icons_respond_Forall|constructor].
Qed.

Section HandlerFacts.
Context `{CV : cv2}.

Lemma find_icons_body_no_template ICON_TEMPLATES screenshot data icon_name :
  json_lower (get data "icon" (JStr "")) = Ok icon_name ->
  ICON_TEMPLATES !! icon_name = None ->
  find_icons_body ICON_TEMPLATES screenshot data
  = (found ← detect_common_ui_elements (cvtColor_RGB2GRAY screenshot) screenshot icon_name
                                       (get data "threshold" (JNum 0.8));
     json_response found).
Proof.
  intros Hname Hnone. unfold find_icons_body. rewrite Hname. simpl.
  rewrite Hnone. simpl. by destruct (detect_common_ui_elements _ _ _ _).
Qed.

Lemma find_icons_body_template ICON_TEMPLATES screenshot data icon_name template out :
  json_lower (get data "icon" (JStr "")) = Ok icon_name ->
  ICON_TEMPLATES !! icon_name = Some template ->
  find_template_matches (cvtColor_RGB2GRAY screenshot) template icon_name
                        (get data "threshold" (JNum 0.8)) = Ok out ->
  find_icons_body ICON_TEMPLATES screenshot data
  = match out with
    | [] =>
        found ← detect_common_ui_elements (cvtColor_RGB2GRAY screenshot) screenshot icon_name
                                          (get data "threshold" (JNum 0.8));
        json_response found
    | _ :: _ => json_response out
    end.
Proof.
  intros Hname Hsome Hout. unfold find_icons_body. rewrite Hname. simpl.
  rewrite Hsome, Hout. simpl. destruct out; [|done].
  by destruct (detect_common_ui_elements _ _ _ _).
Qed.

Lemma find_template_matches_serializable screen_gray template name threshold out :
  find_template_matches screen_gray template name threshold = Ok out ->
  Forall (fun d => serializable d = true) out.
Proof.
  intros Hout. apply Forall_forall. intros d Hd.
  destruct (find_template_matches_from_scale _ _ _ _ _ _ Hout Hd) as (_ & _ & _ & H & _).
  exact H.
Qed.
End HandlerFacts.

(** C1, as stated, fails: with a template registered under ["close"] whose
    matcher run is empty, the handler goes on to the close-button detector
    and returns what it finds. *)
Lemma empty_template_run_falls_through :
  let CV := scripted_cv2 [[0.1]]%Q [rect_contour 0 0 16 10] None None in
  ({[ "close" := patch ]} : gmap string ndarray) !! "close" = Some patch
  /\ find_template_matches (cvtColor_RGB2GRAY screen) patch "close" (JNum 0.8) = Ok []
  /\ display_find_icons {[ "close" := patch ]} screen (ask "close")
     = IconsOk [hit "close" (box 0 0 16 10) 0.7].
Proof. vm_compute. repeat split. Qed.

(** C1 (amended): for a request whose icon name has a registered template,
    when the suppressed matcher result is not empty the handler returns
    exactly that result and the heuristic detectors are not consulted; when
    it is empty the handler goes on to the heuristic detectors under the
    same name and answers from their result. *)
Theorem template_result_or_fallback `{CV : cv2} (ICON_TEMPLATES : gmap string ndarray)
    (screenshot : color) (data : gmap string json) (icon_name : string)
    (template : ndarray) (out : list Detection) :
  json_lower (get data "icon" (JStr "")) = Ok icon_name ->
  ICON_TEMPLATES !! icon_name = Some template ->
  find_template_matches (cvtColor_RGB2GRAY screenshot) template icon_name
                        (get data "threshold" (JNum 0.8)) = Ok out ->
  (out <> [] -> display_find_icons ICON_TEMPLATES screenshot data = IconsOk out)
  /\ (out = [] ->
      display_find_icons ICON_TEMPLATES screenshot data
      = respond (found ← detect_common_ui_elements (cvtColor_RGB2GRAY screenshot) screenshot
                                                   icon_name (get data "threshold" (JNum 0.8));
                 json_response found)).
Proof.
  intros Hname Hsome Hout. unfold display_find_icons.
  rewrite (find_icons_body_template _ _ _ _ _ _ Hname Hsome Hout). split.
  - intros Hne. destruct out as [|d out]; [done|].
    rewrite json_response_serializable; [done|].
    by eapply find_template_matches_serializable.
  - by intros ->.
Qed.

Lemma template_result_or_fallback_witness :
  let CV := scripted_cv2 [[0.1; 0.95]; [0.2; 0.3]]%Q [] None None in
  display_find_icons {[ "save" := patch ]} screen (ask "Save")
  = IconsOk [hit "save" (box 1 0 3 3) 0.95; hit "save" (box 1 0 5 5) 0.95].
Proof.
  intros CV.
  apply (proj1 (template_result_or_fallback {[ "save" := patch ]} screen (ask "Save") "save"
                  patch [hit "save" (box 1 0 3 3) 0.95; hit "save" (box 1 0 5 5) 0.95]
                  ltac:(vm_compute; reflexivity) ltac:(vm_compute; reflexivity)
                  ltac:(vm_compute; reflexivity))).
  discriminate.
Defined.

(** C2, as stated, fails: the close-button detector reports two boxes with
    IoU 0.6 and the handler returns both, where overlap suppression would
    keep one. *)
Lemma heuristic_overlap_not_suppressed :
  let CV := scripted_cv2 [] [rect_contour 0 0 16 10; rect_contour 4 0 16 10] None None in
  display_find_icons ∅ screen (ask "close")
  = IconsOk [hit "close" (box 0 0 16 10) 0.7; hit "close" (box 4 0 16 10) 0.7]
  /\ (IoU (box 0 0 16 10) (box 4 0 16 10) == 0.6)%Q
  /\ remove_overlapping_detections
       [hit "close" (box 0 0 16 10) 0.7; hit "close" (box 4 0 16 10) 0.7] default_overlap_thresh
     = [hit "close" (box 0 0 16 10) 0.7].
Proof. vm_compute. repeat split. Qed.

(** C2 (amended): for a request that falls through to the heuristic
    detectors (no template under the name, or an empty matcher run), the
    handler hands the detector's capped candidate list to the encoder as it
    is, without overlap suppression.  For every alias other than the
    minimize ones, whenever the detector returns its list, that list is the
    response's icon list; and every detector but the search one always
    returns. *)
Theorem heuristic_result_unsuppressed `{CV : cv2} (ICON_TEMPLATES : gmap string ndarray)
    (screenshot : color) (data : gmap string json) (icon_name : string) :
  json_lower (get data "icon" (JStr "")) = Ok icon_name ->
  ICON_TEMPLATES !! icon_name = None
  \/ (exists template,
         ICON_TEMPLATES !! icon_name = Some template
         /\ find_template_matches (cvtColor_RGB2GRAY screenshot) template icon_name
                                  (get data "threshold" (JNum 0.8)) = Ok []) ->
  let heuristic := detect_common_ui_elements (cvtColor_RGB2GRAY screenshot) screenshot
                                             icon_name (get data "threshold" (JNum 0.8)) in
  display_find_icons ICON_TEMPLATES screenshot data
  = respond (found ← heuristic; json_response found)
  /\ (in_names icon_name ["minimize"; "minimiser"; "_"; "moins"] = false ->
      forall found, heuristic = Ok found ->
        display_find_icons ICON_TEMPLATES screenshot data = IconsOk found)
  /\ (in_names icon_name ["minimize"; "minimiser"; "_"; "moins"] = false ->
      in_names icon_name ["search"; "recherche"; "loupe"; "magnifying glass"] = false ->
      exists found,
        heuristic = Ok found
        /\ display_find_icons ICON_TEMPLATES screenshot data = IconsOk found).
Proof.
  intros Hname Hfall heuristic.
  assert (Hbody : find_icons_body ICON_TEMPLATES screenshot data
                  = (found ← heuristic; json_response found)).
  { destruct Hfall as [Hnone|(template & Hsome & Hout)].
    - by apply find_icons_body_no_template.
    - by rewrite (find_icons_body_template _ _ _ _ _ _ Hname Hsome Hout). }
  assert (Hok : in_names icon_name ["minimize"; "minimiser"; "_"; "moins"] = false ->
                forall found, heuristic = Ok found ->
                  display_find_icons ICON_TEMPLATES screenshot data = IconsOk found).
  { intros Hmin found Hfound. unfold display_find_icons. rewrite Hbody, Hfound. simpl.
    rewrite json_response_serializable; [done|].
    pose proof (detect_common_ui_elements_serializable (cvtColor_RGB2GRAY screenshot)
                  screenshot icon_name (get data "threshold" (JNum 0.8)) Hmin) as H.
    fold heuristic in H. by rewrite Hfound in H. }
  split; [by unfold display_find_icons; rewrite Hbody|]. split; [exact Hok|].
  intros Hmin Hsearch.
  destruct (detect_common_ui_elements_total (cvtColor_RGB2GRAY screenshot) screenshot
              icon_name (get data "threshold" (JNum 0.8)) Hsearch) as [found Hfound].
  exists found. split; [done|]. by apply Hok.
Qed.

Lemma heuristic_result_unsuppressed_witness :
  let CV := scripted_cv2 [] [rect_contour 0 0 16 10; rect_contour 4 0 16 10] None None in
  display_find_icons ∅ screen (ask "Fermer")
  = IconsOk [hit "close" (box 0 0 16 10) 0.7; hit "close" (box 4 0 16 10) 0.7].
Proof.
  intros CV.
  refine (proj1 (proj2 (heuristic_result_unsuppressed ∅ screen (ask "Fermer") "fermer" _ _))
                _ _ _).
  - vm_compute. reflexivity.
  - left. vm_compute. reflexivity.
  - vm_compute. reflexivity.
  - vm_compute. reflexivity.
Defined.

Example search_circle_at_the_left_edge_fails :
  let CV := scripted_cv2 [] [] (Some [(0, 0, 6, 6)]) (Some [(6, 20, 9)]%Q) in
  display_find_icons ∅ screen (ask "search")
  = IconsError "cv2.error: (-215:Assertion failed) !_src.empty() in function 'Canny'".
Proof. vm_compute. reflexivity. Qed.

(** ** Result caps *)

(** C6, as stated, fails for the radio-button detector: it returns up to
    ten detections, here six. *)
Lemma radio_returns_six :
  let CV := scripted_cv2 [] [] None (Some six_circles) in
  detect_radio_buttons (cvtColor_RGB2GRAY screen)
  = [hit "radio" (box 4 4 12 12) 0.6; hit "radio" (box 34 4 12 12) 0.6;
     hit "radio" (box 64 4 12 12) 0.6; hit "radio" (box 94 4 12 12) 0.6;
     hit "radio" (box 124 4 12 12) 0.6; hit "radio" (box 154 4 12 12) 0.6]
  /\ ~ (length (detect_radio_buttons (cvtColor_RGB2GRAY screen)) <= 5)%nat.
Proof. vm_compute. split; [reflexivity|lia]. Qed.

(** C6 (amended): each heuristic detector returns the first entries of its
    filtered candidate list, in detection order: at most 10 for the
    checkbox and radio-button detectors, at most 5 for the close, minimize,
    maximize, search and menu detectors. *)
Theorem detector_caps `{CV : cv2} (screen_gray : gray) (screen_rgb : color) :
  (detect_close_buttons screen_gray screen_rgb = take 5 (close_results screen_rgb)
   /\ (length (detect_close_buttons screen_gray screen_rgb) <= 5)%nat)
  /\ (detect_minimize_buttons screen_gray screen_rgb = take 5 (minimize_results screen_gray)
      /\ (length (detect_minimize_buttons screen_gray screen_rgb) <= 5)%nat)
  /\ (detect_maximize_buttons screen_gray screen_rgb = take 5 (maximize_results screen_gray)
      /\ (length (detect_maximize_buttons screen_gray screen_rgb) <= 5)%nat)
  /\ (detect_checkboxes screen_gray = take 10 (checkbox_results screen_gray)
      /\ (length (detect_checkboxes screen_gray) <= 10)%nat)
  /\ (detect_radio_buttons screen_gray = take 10 (radio_results screen_gray)
      /\ (length (detect_radio_buttons screen_gray) <= 10)%nat)
  /\ (returned (detect_search_icons screen_gray)
      = take 5 (returned (search_results screen_gray))
      /\ (length (returned (detect_search_icons screen_gray)) <= 5)%nat)
  /\ (detect_hamburger_menu screen_gray = take 5 (menu_results screen_gray)
      /\ (length (detect_hamburger_menu screen_gray) <= 5)%nat).
Proof.
  rewrite detect_search_icons_take.
  unfold detect_close_buttons, detect_minimize_buttons, detect_maximize_buttons,
    detect_checkboxes, detect_radio_buttons, detect_hamburger_menu.
  repeat split; rewrite length_take; lia.
Qed.

(** ** Unknown names and labels *)

(** C8: a request whose icon name has no registered template and is none
    of the recognized aliases is answered with [success = true] and an
    empty icon list. *)
Theorem unknown_alias_is_empty_success `{CV : cv2} (ICON_TEMPLATES : gmap string ndarray)
    (screenshot : color) (data : gmap string json) (requested : string) :
  get data "icon" (JStr "") = JStr requested ->
  ICON_TEMPLATES !! lower requested = None ->
  recognized (lower requested) = false ->
  display_find_icons ICON_TEMPLATES screenshot data = IconsOk []
  /\ success (display_find_icons ICON_TEMPLATES screenshot data) = true
  /\ icons (display_find_icons ICON_TEMPLATES screenshot data) = []
  /\ status (display_find_icons ICON_TEMPLATES screenshot data) = 200.
Proof.
  intros Hicon Hnone Hunknown.
  assert (H : display_find_icons ICON_TEMPLATES screenshot data = IconsOk []);
    [|by rewrite H].
  unfold display_find_icons.
  rewrite (find_icons_body_no_template _ _ _ (lower requested)); [|by rewrite Hicon|done].
  destruct (detect_common_ui_elements_cases (cvtColor_RGB2GRAY screenshot) screenshot
              (lower requested) (get data "threshold" (JNum 0.8)))
    as [[E _]|[[E _]|[[E _]|[[E _]|[[E _]|[[E _]|[[E _]|[_ ->]]]]]]]]; [..|done].
  all: unfold recognized, alias_groups in Hunknown; cbn [existsb snd] in Hunknown;
    rewrite E in Hunknown; by rewrite ?orb_true_r in Hunknown.
Qed.

Lemma unknown_alias_is_empty_success_witness :
  let CV := scripted_cv2 [[0.9]]%Q [rect_contour 0 0 16 10] None (Some six_circles) in
  display_find_icons {[ "save" := patch ]} screen (ask "Zoom") = IconsOk []
  /\ success (display_find_icons {[ "save" := patch ]} screen (ask "Zoom")) = true
  /\ icons (display_find_icons {[ "save" := patch ]} screen (ask "Zoom")) = []
  /\ status (display_find_icons {[ "save" := patch ]} screen (ask "Zoom")) = 200.
Proof.
  intros CV.
  refine (unknown_alias_is_empty_success {[ "save" := patch ]} screen (ask "Zoom") "Zoom" _ _ _).
  - vm_compute. reflexivity.
  - vm_compute. reflexivity.
  - vm_compute. reflexivity.
Defined.

(** C10: for every recognized alias, every detection of the heuristic
    detectors carries the detector's own name ("close", "minimize",
    "maximize", "checkbox", "radio", "search" or "menu"), whatever alias
    was asked for: "fermer" gives "close", "loupe" gives "search"; and so
    do the handler's icons when no template is registered under the
    alias. *)
Theorem heuristic_labels `{CV : cv2} (screen_gray : gray) (screen_rgb : color)
    (threshold : json) :
  Forall (fun group =>
            Forall (fun alias =>
                      Forall (fun d => text d = fst group)
                             (returned (detect_common_ui_elements screen_gray screen_rgb
                                                                  alias threshold)))
                   (snd group))
         alias_groups
  /\ Forall (fun d => text d = "close")
            (returned (detect_common_ui_elements screen_gray screen_rgb "fermer" threshold))
  /\ Forall (fun d => text d = "search")
            (returned (detect_common_ui_elements screen_gray screen_rgb "loupe" threshold))
  /\ (forall (ICON_TEMPLATES : gmap string ndarray) (data : gmap string json) group alias,
         group ∈ alias_groups -> alias ∈ snd group ->
         json_lower (get data "icon" (JStr "")) = Ok alias ->
         ICON_TEMPLATES !! alias = None ->
         Forall (fun d => text d = fst group)
                (icons (display_find_icons ICON_TEMPLATES screen_rgb data))).
Proof.
  pose proof (alias_labels screen_gray screen_rgb threshold) as Hall.
  split; [exact Hall|]. split; [|split].
  - unfold alias_groups in Hall.
    apply Forall_cons in Hall as [Hclose _]. cbn [fst snd] in Hclose.
    apply Forall_cons in Hclose as [_ Hclose].
    apply Forall_cons in Hclose as [_ Hclose].
    by apply Forall_cons in Hclose as [Hclose _].
  - unfold alias_groups in Hall.
    do 5 apply Forall_cons in Hall as [_ Hall].
    apply Forall_cons in Hall as [Hsearch _]. cbn [fst snd] in Hsearch.
    do 2 apply Forall_cons in Hsearch as [_ Hsearch].
    by apply Forall_cons in Hsearch as [Hsearch _].
  - intros ICON_TEMPLATES data group alias Hgroup Halias Hname Hnone.
    unfold display_find_icons.
    rewrite (find_icons_body_no_template _ _ _ alias Hname Hnone).
    apply icons_respond_returned_Forall.
    pose proof (alias_labels (cvtColor_RGB2GRAY screen_rgb) screen_rgb
                  (get data "threshold" (JNum 0.8))) as H.
    rewrite Forall_forall in H. specialize (H group Hgroup).
    rewrite Forall_forall in H. by apply H.
Qed.

Example loupe_is_labelled_search :
  let CV := scripted_cv2 [] [] (Some [(0, 0, 6, 6)]) (Some [(20, 20, 9)]%Q) in
  display_find_icons ∅ screen (ask "Loupe") = IconsOk [hit "search" (box 6 6 33 33) 0.6].
Proof. vm_compute. reflexivity. Qed.

(** ** Confidence *)

(** C9, as stated, fails for a negative threshold: the matcher then reports
    points of negative correlation, with that score as the confidence. *)
Lemma negative_threshold_negative_confidence :
  let CV := scripted_cv2 [[-0.5]]%Q [] None None in
  display_find_icons {[ "save" := patch ]} screen (ask_with "save" (-1))
  = IconsOk [hit "save" (box 0 0 3 3) (-0.5); hit "save" (box 0 0 5 5) (-0.5)]
  /\ ~ (0 <= confidence (hit "save" (box 0 0 3 3) (-0.5)))%Q.
Proof. vm_compute. split; [reflexivity|]. intros H. apply H. reflexivity. Qed.

(** C9 (amended): when the correlation scores of [matchTemplate] lie
    between -1 and 1 and the request's threshold is absent or a scalar (not
    a list or an object) that, if it is a number, is not negative, every
    detection the handler returns has a confidence between 0 and 1.
    (Of numpy's comparison it is used that no negative score passes a
    threshold that is not negative.) *)
Theorem confidence_bounds `{CV : cv2} (ICON_TEMPLATES : gmap string ndarray)
    (screenshot : color) (data : gmap string json) :
  (forall image templ row v,
      row ∈ matchTemplate image templ -> v ∈ row -> (-1 <= v <= 1)%Q) ->
  (forall v t, (0 <= t)%Q -> float32_ge v t = true -> (0 <= v)%Q) ->
  is_scalar (get data "threshold" (JNum 0.8)) = true ->
  (forall t, threshold_value (get data "threshold" (JNum 0.8)) = Some t -> (0 <= t)%Q) ->
  Forall (fun d => (0 <= confidence d <= 1)%Q)
         (icons (display_find_icons ICON_TEMPLATES screenshot data)).
Proof.
  intros Hrange Hsign Hscalar Hthreshold.
  set (threshold := get data "threshold" (JNum 0.8)) in *.
  set (screen_gray := cvtColor_RGB2GRAY screenshot).
  assert (Hheur : forall icon_name,
             Forall (fun d => (0 <= confidence d <= 1)%Q)
                    (returned (detect_common_ui_elements screen_gray screenshot
                                                         icon_name threshold))).
  { intros icon_name. apply detect_common_ui_elements_Forall.
    intros label conf d (_ & _ & ->) Hin. simpl in Hin.
    destruct Hin as [[= _ <-]|[[= _ <-]|[[= _ <-]|[[= _ <-]
                    |[[= _ <-]|[[= _ <-]|[[= _ <-]|[]]]]]]]]; by split. }
  unfold display_find_icons.
  destruct (json_lower (get data "icon" (JStr ""))) as [icon_name|e] eqn:Hname.
  2:{ unfold find_icons_body. rewrite Hname. constructor. }
  destruct (ICON_TEMPLATES !! icon_name) as [template|] eqn:Hlook.
  2:{ rewrite (find_icons_body_no_template _ _ _ _ Hname Hlook).
      apply icons_respond_returned_Forall, Hheur. }
  destruct (find_template_matches screen_gray template icon_name threshold)
    as [out|e] eqn:Hout.
  2:{ unfold find_icons_body. rewrite Hname. simpl. rewrite Hlook.
      fold screen_gray threshold. rewrite Hout. constructor. }
  rewrite (find_icons_body_template _ _ _ _ _ _ Hname Hlook Hout).
  fold screen_gray threshold.
  destruct out as [|d0 out]; [apply icons_respond_returned_Forall, Hheur|].
  apply icons_respond_Forall.
  apply Forall_forall. intros d Hd.
  destruct (find_template_matches_from_scale _ _ _ _ _ _ Hout Hd)
    as (scale & _ & _ & _ & _ & _ & _ & _ & _ & _ & (row & Hrow & Hv) & Hpass).
  destruct (Hpass Hscalar) as (t & Ht & Hge & _).
  split.
  - exact (Hsign _ _ (Hthreshold t Ht) Hge).
  - exact (proj2 (Hrange _ _ _ _ Hrow Hv)).
Qed.

Lemma confidence_bounds_witness :
  let CV := scripted_cv2 [[0.1; 0.95]; [0.2; 0.3]]%Q [] None None in
  Forall (fun d => (0 <= confidence d <= 1)%Q)
         (icons (display_find_icons {[ "save" := patch ]} screen (ask_with "save" 0.9))).
Proof.
  intros CV.
  refine (confidence_bounds {[ "save" := patch ]} screen (ask_with "save" 0.9) _ _ _ _).
  - intros image templ row v Hrow Hv. simpl in Hrow.
    apply elem_of_cons in Hrow as [->|Hrow].
    + apply elem_of_cons in Hv as [->|Hv]; [by split|].
      apply list_elem_of_singleton in Hv as ->. by split.
    + apply list_elem_of_singleton in Hrow as ->.
      apply elem_of_cons in Hv as [->|Hv]; [by split|].
      apply list_elem_of_singleton in Hv as ->. by split.
  - intros v t Ht Hge. simpl in Hge. apply Qle_bool_iff in Hge. by eapply Qle_trans.
  - vm_compute. reflexivity.
  - intros t Ht. vm_compute in Ht. injection Ht as <-. discriminate.
Defined.

Example list_threshold_is_broadcast :
  let CV := scripted_cv2 [[-0.5]]%Q [] None None in
  display_find_icons {[ "save" := patch ]} screen
                     (<[ "threshold" := JArr [JNum (-1)] ]> (ask "save"))
  = IconsOk [hit "save" (box 0 0 3 3) (-0.5); hit "save" (box 0 0 5 5) (-0.5)].
Proof. vm_compute. reflexivity. Qed.

Example default_threshold_is_used :
  let CV := scripted_cv2 [[0.79; 0.8]]%Q [] None None in
  display_find_icons {[ "save" := patch ]} screen (ask "save")
  = IconsOk [hit "save" (box 1 0 3 3) 0.8; hit "save" (box 1 0 5 5) 0.8].
Proof. vm_compute. reflexivity. Qed.

Example text_threshold_is_an_error :
  let CV := scripted_cv2 [[0.9]]%Q [] None None in
  display_find_icons {[ "save" := patch ]} screen
                     (<[ "threshold" := JStr "high" ]> (ask "save"))
  = IconsError "TypeError: '>=' not supported".
Proof. vm_compute. reflexivity. Qed.

Example minimize_hits_do_not_encode :
  let CV := scripted_cv2 [] [] (Some [(10, 3, 30, 3)]) None in
  detect_minimize_buttons (cvtColor_RGB2GRAY screen) screen
  = [icon "minimize" (np_int32 5) (np_int32 (-7)) (np_int32 30) (py_int 20) 0.6]
  /\ display_find_icons ∅ screen (ask "minimize")
     = IconsError "TypeError: Object of type int32 is not JSON serializable".
Proof. vm_compute. split; reflexivity. Qed.

(** ** The registry *)

Section RegistryFacts.
Context `{CV : cv2}.

(** A successful registration stores the decoded image under the
    lower-cased name. *)
Lemma display_register_icon_ok ICON_TEMPLATES data registry name w h :
  display_register_icon ICON_TEMPLATES data = (registry, RegisterOk name w h) ->
  exists requested template,
    get data "name" (JStr "") = JStr requested
    /\ name = lower requested
    /\ (bytes ← json_b64decode (get data "template" (JStr "")); imdecode bytes)
       = Ok (Some template)
    /\ registry = <[name := Color template]> ICON_TEMPLATES.
Proof.
  unfold display_register_icon, register_icon_body.
  destruct (get data "name" (JStr "")) as [| |q|requested| |]; simpl; try done.
  destruct (_ || _); simpl; [done|].
  destruct (json_b64decode _) as [bytes|e]; simpl; [|done].
  destruct (imdecode bytes) as [[template|]|e]; simpl; try done.
  intros [= <- <- <- <-]. by exists requested, template.
Qed.

(** A refused registration leaves the registry as it was. *)
Lemma display_register_icon_error ICON_TEMPLATES data registry code e :
  display_register_icon ICON_TEMPLATES data = (registry, RegisterError code e) ->
  registry = ICON_TEMPLATES.
Proof.
  unfold display_register_icon, register_icon_body.
  destruct (json_lower _) as [name|e1]; simpl; [|congruence].
  destruct (_ || _); simpl; [congruence|].
  destruct (json_b64decode _) as [bytes|e2]; simpl; [|congruence].
  destruct (imdecode bytes) as [[template|]|e3]; simpl; congruence.
Qed.
End RegistryFacts.

(** C7: after two successful registrations under names with the same
    lower-cased key, the key holds the second template, whatever the
    registry held before; other keys are as the first registration left
    them. *)
Theorem register_last_write_wins `{CV : cv2} (ICON_TEMPLATES registry1 registry2 : gmap string ndarray)
    (data1 data2 : gmap string json) (requested1 requested2 name1 name2 : string)
    (w1 h1 w2 h2 : Z) :
  get data1 "name" (JStr "") = JStr requested1 ->
  get data2 "name" (JStr "") = JStr requested2 ->
  lower requested1 = lower requested2 ->
  display_register_icon ICON_TEMPLATES data1 = (registry1, RegisterOk name1 w1 h1) ->
  display_register_icon registry1 data2 = (registry2, RegisterOk name2 w2 h2) ->
  exists template2,
    (bytes ← json_b64decode (get data2 "template" (JStr "")); imdecode bytes)
    = Ok (Some template2)
    /\ registry2 !! lower requested1 = Some (Color template2)
    /\ registry2 !! lower requested2 = Some (Color template2)
    /\ forall other, other <> lower requested2 -> registry2 !! other = registry1 !! other.
Proof.
  intros Hname1 Hname2 Hkey Hfirst Hsecond.
  apply display_register_icon_ok in Hsecond as (r2 & template2 & Hr2 & -> & Hdecode & ->).
  rewrite Hname2 in Hr2. injection Hr2 as <-.
  exists template2. rewrite Hkey. repeat split; [done|..].
  - apply lookup_insert_eq.
  - apply lookup_insert_eq.
  - intros other Hother. by apply lookup_insert_ne.
Qed.

Lemma register_last_write_wins_witness :
  let CV := scripted_cv2 [] [] None None in
  let registry1 := fst (display_register_icon ∅ (offer "Save" "AB")) in
  let registry2 := fst (display_register_icon registry1 (offer "SAVE" "CD")) in
  exists template2,
    (bytes ← json_b64decode (get (offer "SAVE" "CD") "template" (JStr "")); imdecode bytes)
    = Ok (Some template2)
    /\ registry2 !! lower "Save" = Some (Color template2)
    /\ registry2 !! lower "SAVE" = Some (Color template2)
    /\ forall other, other <> lower "SAVE" -> registry2 !! other = registry1 !! other.
Proof.
  intros CV registry1 registry2.
  refine (register_last_write_wins ∅ registry1 registry2 (offer "Save" "AB") (offer "SAVE" "CD")
            "Save" "SAVE" "save" "save" 2 1 2 1 _ _ _ _ _).
  - vm_compute. reflexivity.
  - vm_compute. reflexivity.
  - vm_compute. reflexivity.
  - vm_compute. reflexivity.
  - vm_compute. reflexivity.
Defined.

Example second_template_is_found :
  let CV := scripted_cv2 [] [] None None in
  let registry1 := fst (display_register_icon ∅ (offer "Save" "AB")) in
  let registry2 := fst (display_register_icon registry1 (offer "SAVE" "CD")) in
  registry1 !! "save" = Some (Color [[(65, 65, 65); (66, 66, 66)]])
  /\ registry2 !! "save" = Some (Color [[(67, 67, 67); (68, 68, 68)]])
  /\ display_register_icon registry2 (offer "" "EF")
     = (registry2, RegisterError 400 "Name and template required").
Proof. vm_compute. repeat split. Qed.

(** * Further properties *)

(** ** Overlap suppression, continued *)

Lemma overlaps_above (det kept : Detection) (t : Q) :
  overlaps det kept t = true -> (t < IoU (bounds det) (bounds kept))%Q.
Proof.
  unfold overlaps, IoU. cbv zeta. destruct (_ && _); [|done]. apply Qltb_lt.
Qed.

Lemma IoU_range (b1 b2 : Bounds) : (0 <= IoU b1 b2 <= 1)%Q.
Proof.
  unfold IoU. cbv zeta.
  destruct (_ && _) eqn:Hmeet; [|by split].
  apply andb_true_iff in Hmeet as [Hx Hy]. apply Z.ltb_lt in Hx, Hy.
  destruct (0 <? _) eqn:Hunion; [|by split]. apply Z.ltb_lt in Hunion.
  set (w1 := to_Z (width b1)) in *. set (h1 := to_Z (height b1)) in *.
  set (w2 := to_Z (width b2)) in *. set (h2 := to_Z (height b2)) in *.
  set (dx := Z.min (to_Z (x b1) + w1) (to_Z (x b2) + w2)
             - Z.max (to_Z (x b1)) (to_Z (x b2))) in *.
  set (dy := Z.min (to_Z (y b1) + h1) (to_Z (y b2) + h2)
             - Z.max (to_Z (y b1)) (to_Z (y b2))) in *.
  assert (0 < dx /\ dx <= w1 /\ dx <= w2) as (Hdx & Hdx1 & Hdx2) by (subst dx; lia).
  assert (0 < dy /\ dy <= h1 /\ dy <= h2) as (Hdy & Hdy1 & Hdy2) by (subst dy; lia).
  assert (0 < dx * dy) as Hi by nia.
  assert (dx * dy <= w1 * h1) as Hi1 by nia.
  assert (dx * dy <= w2 * h2) as Hi2 by nia.
  assert (0 < inject_Z (w1 * h1 + w2 * h2 - dx * dy))%Q as Hpos.
  { rewrite <- (Zlt_Qlt 0). lia. }
  split.
  - apply Qle_shift_div_l; [exact Hpos|]. rewrite Qmult_0_l.
    rewrite <- (Zle_Qle 0). lia.
  - apply Qle_shift_div_r; [exact Hpos|]. rewrite Qmult_1_l.
    rewrite <- Zle_Qle. lia.
Qed.

Lemma suppress_loop_prefix (dets keep : list Detection) (t : Q) :
  exists more, suppress_loop dets keep t = keep ++ more.
Proof.
  revert keep. induction dets as [|det dets IH]; intros keep; simpl.
  - exists []. by rewrite app_nil_r.
  - destruct (should_keep det keep t).
    + destruct (IH (keep ++ [det])) as [more ->]. exists (det :: more).
      by rewrite <- app_assoc.
    + apply IH.
Qed.

Lemma suppress_loop_all_apart (dets keep : list Detection) (t : Q) :
  StronglySorted (apart t) (keep ++ dets) -> suppress_loop dets keep t = keep ++ dets.
Proof.
  revert keep. induction dets as [|det dets IH]; intros keep Hall; simpl.
  - by rewrite app_nil_r.
  - assert (E : should_keep det keep t = true).
    { apply should_keep_Forall, Forall_forall. intros k Hk.
      apply (StronglySorted_app_1_elem_of _ _ _ _ _ Hall Hk). by left. }
    rewrite E, IH; rewrite <- app_assoc; done.
Qed.

Lemma sorted_of_ordered {A : Type} (before : A -> A -> bool) (l : list A) :
  StronglySorted (fun a b => before b a = false) l -> sorted before l = l.
Proof.
  induction 1 as [|a l Hl IH Ha]; simpl; [done|]. rewrite IH.
  destruct l as [|b l]; simpl; [done|].
  apply Forall_cons in Ha as [-> _]. done.
Qed.

Lemma sorted_by_confidence_ordered (l : list Detection) :
  StronglySorted (fun a b => by_confidence_desc b a = false) (sorted by_confidence_desc l).
Proof.
  apply sorted_ordered.
  - intros a b Hab. unfold by_confidence_desc in *.
    apply Qltb_lt in Hab. apply Qltb_ge. by apply Qlt_le_weak.
  - intros a b c Hab Hbc. unfold by_confidence_desc in *.
    apply Qltb_ge in Hab, Hbc. apply Qltb_ge. by eapply Qle_trans.
Qed.

(** Every candidate is kept or loses to an earlier one. *)
Lemma suppress_loop_complete (pre post keep : list Detection) (d : Detection) (t : Q) :
  let out := suppress_loop (pre ++ d :: post) keep t in
  d ∈ out \/ exists k, k ∈ keep ++ pre /\ k ∈ out /\ overlaps d k t = true.
Proof.
  revert keep. induction pre as [|p pre IH]; intros keep; cbn [app suppress_loop].
  - destruct (should_keep d keep t) eqn:E.
    + left. destruct (suppress_loop_prefix post (keep ++ [d]) t) as [more ->].
      rewrite <- app_assoc. apply elem_of_app. right. by left.
    + right.
      assert (exists k, k ∈ keep /\ overlaps d k t = true) as (k & Hk & Hov).
      { clear -E. induction keep as [|k keep IH]; simpl in E; [done|].
        destruct (overlaps d k t) eqn:Hov.
        - exists k. split; [by left|done].
        - destruct (IH E) as (k' & Hk' & Hov'). exists k'. split; [by right|done]. }
      exists k. rewrite app_nil_r. split; [done|]. split; [|done].
      destruct (suppress_loop_prefix post keep t) as [more ->].
      apply elem_of_app. by left.
  - destruct (should_keep p keep t).
    + destruct (IH (keep ++ [p])) as [Hd|(k & Hk & Hout & Hov)]; [by left|right].
      exists k. split; [|done]. by rewrite <- app_assoc in Hk.
    + destruct (IH keep) as [Hd|(k & Hk & Hout & Hov)]; [by left|right].
      exists k. split; [|done].
      apply elem_of_app in Hk as [Hk|Hk]; apply elem_of_app; [by left|right; by right].
Qed.

(** X1: suppression never invents or repeats a detection: its output is a
    sub-multiset of its input, so it is no longer than the input. *)
Theorem suppress_submultiset (dets : list Detection) (t : Q) :
  remove_overlapping_detections dets t ⊆+ dets
  /\ (length (remove_overlapping_detections dets t) <= length dets)%nat.
Proof.
  assert (H : remove_overlapping_detections dets t ⊆+ dets).
  { etrans; [apply sublist_submseteq, remove_overlapping_detections_sublist|].
    apply Permutation_submseteq, sorted_perm. }
  split; [exact H|]. by apply submseteq_length.
Qed.

(** X2: on a non-empty input the output starts with a detection of the
    highest confidence of the input: the best candidate is never dropped. *)
Theorem suppress_keeps_best (dets : list Detection) (t : Q) :
  dets <> [] ->
  exists best more,
    remove_overlapping_detections dets t = best :: more
    /\ best ∈ dets
    /\ Forall (fun d => (confidence d <= confidence best)%Q) dets.
Proof.
  intros Hne. rewrite remove_overlapping_detections_loop.
  pose proof (confidence_sorted dets) as Hsorted.
  pose proof (sorted_perm by_confidence_desc dets) as Hperm.
  destruct (sorted by_confidence_desc dets) as [|best tail] eqn:E.
  { symmetry in Hperm. by apply Permutation_nil_r in Hperm. }
  simpl. destruct (suppress_loop_prefix tail [best] t) as [more ->].
  exists best, more. split; [done|]. split.
  - rewrite <- Hperm. by left.
  - apply Forall_forall. intros d Hd. rewrite <- Hperm in Hd.
    apply StronglySorted_inv in Hsorted as [_ Hbest].
    apply elem_of_cons in Hd as [->|Hd]; [apply Qle_refl|].
    rewrite Forall_forall in Hbest. by apply Hbest.
Qed.

Lemma suppress_keeps_best_witness :
  exists best more,
    remove_overlapping_detections
      [hit "a" (box 4 0 16 10) 0.8; hit "a" (box 0 0 16 10) 0.9] 0.5 = best :: more
    /\ best ∈ [hit "a" (box 4 0 16 10) 0.8; hit "a" (box 0 0 16 10) 0.9]
    /\ Forall (fun d => (confidence d <= confidence best)%Q)
              [hit "a" (box 4 0 16 10) 0.8; hit "a" (box 0 0 16 10) 0.9].
Proof.
  apply (suppress_keeps_best [hit "a" (box 4 0 16 10) 0.8; hit "a" (box 0 0 16 10) 0.9] 0.5).
  discriminate.
Defined.

(** X3: a detection is dropped only in favour of a kept one: every input
    detection is in the output, or has an IoU above the threshold with an
    output detection of at least its confidence. *)
Theorem suppress_drops_only_dominated (dets : list Detection) (t : Q) :
  Forall (fun d =>
            d ∈ remove_overlapping_detections dets t
            \/ exists k,
                 k ∈ remove_overlapping_detections dets t
                 /\ (confidence d <= confidence k)%Q
                 /\ (t < IoU (bounds d) (bounds k))%Q)
         dets.
Proof.
  apply Forall_forall. intros d Hd.
  rewrite remove_overlapping_detections_loop.
  apply (elem_of_sorted by_confidence_desc) in Hd.
  apply list_elem_of_split in Hd as (pre & post & Hsplit).
  pose proof (confidence_sorted dets) as Hsorted. rewrite Hsplit in Hsorted |- *.
  destruct (suppress_loop_complete pre post [] d t) as [Hin|(k & Hk & Hout & Hov)];
    [by left|right].
  exists k. split; [done|]. split; [|by apply overlaps_above].
  apply (StronglySorted_app_1_elem_of _ _ _ _ _ Hsorted Hk). by left.
Qed.

(** X4: suppression is idempotent: running it again on its own output, with
    the same threshold, changes nothing. *)
Theorem suppress_idempotent (dets : list Detection) (t : Q) :
  remove_overlapping_detections (remove_overlapping_detections dets t) t
  = remove_overlapping_detections dets t.
Proof.
  rewrite (remove_overlapping_detections_loop (remove_overlapping_detections dets t)).
  rewrite sorted_of_ordered.
  - apply (suppress_loop_all_apart _ []). simpl.
    rewrite remove_overlapping_detections_loop. apply suppress_loop_apart. constructor.
  - eapply StronglySorted_sublist; [apply remove_overlapping_detections_sublist|].
    apply sorted_by_confidence_ordered.
Qed.

(** X5: the IoU the loop computes is symmetric and lies between 0 and 1;
    it is 1 for a box of positive size against itself. *)
Theorem IoU_bounds (b1 b2 : Bounds) :
  IoU b1 b2 = IoU b2 b1
  /\ (0 <= IoU b1 b2 <= 1)%Q
  /\ (0 < to_Z (width b1) -> 0 < to_Z (height b1) -> (IoU b1 b1 == 1)%Q).
Proof.
  split; [apply IoU_sym|]. split; [apply IoU_range|].
  intros Hw Hh. unfold IoU. cbv zeta.
  rewrite Z.max_id, Z.max_id, Z.min_id, Z.min_id.
  assert (Hx : (to_Z (x b1) <? to_Z (x b1) + to_Z (width b1)) = true) by (apply Z.ltb_lt; lia).
  assert (Hy : (to_Z (y b1) <? to_Z (y b1) + to_Z (height b1)) = true) by (apply Z.ltb_lt; lia).
  rewrite Hx, Hy. cbn [andb].
  replace (to_Z (x b1) + to_Z (width b1) - to_Z (x b1)) with (to_Z (width b1)) by lia.
  replace (to_Z (y b1) + to_Z (height b1) - to_Z (y b1)) with (to_Z (height b1)) by lia.
  replace (to_Z (width b1) * to_Z (height b1) + to_Z (width b1) * to_Z (height b1)
           - to_Z (width b1) * to_Z (height b1))
    with (to_Z (width b1) * to_Z (height b1)) by lia.
  assert (Ha : 0 < to_Z (width b1) * to_Z (height b1)) by nia.
  assert (E : (0 <? to_Z (width b1) * to_Z (height b1)) = true) by (by apply Z.ltb_lt).
  rewrite E. apply Qmult_inv_r. intros H0.
  assert (Hq : (0 < inject_Z (to_Z (width b1) * to_Z (height b1)))%Q).
  { by rewrite <- (Zlt_Qlt 0). }
  rewrite H0 in Hq. by apply Qlt_irrefl in Hq.
Qed.

(** X6: with a threshold of 1 or more nothing is dropped: the output is the
    input sorted by confidence, highest first. *)
Theorem suppress_threshold_one_keeps_all (dets : list Detection) (t : Q) :
  (1 <= t)%Q ->
  remove_overlapping_detections dets t = sorted by_confidence_desc dets
  /\ remove_overlapping_detections dets t ≡ₚ dets.
Proof.
  intros Ht.
  assert (H : remove_overlapping_detections dets t = sorted by_confidence_desc dets).
  { rewrite remove_overlapping_detections_loop.
    assert (Hall : forall l keep, suppress_loop l keep t = keep ++ l).
    { induction l as [|d l IH]; intros keep; simpl; [by rewrite app_nil_r|].
      assert (E : should_keep d keep t = true).
      { apply should_keep_Forall, Forall_forall. intros k _.
        destruct (overlaps d k t) eqn:Hov; [|done].
        apply overlaps_above in Hov.
        pose proof (proj2 (IoU_range (bounds d) (bounds k))) as Hle.
        exfalso. apply (Qlt_irrefl t).
        eapply Qlt_le_trans; [exact Hov|]. by eapply Qle_trans. }
      rewrite E, IH, <- app_assoc. done. }
    apply (Hall _ []). }
  split; [exact H|]. rewrite H. apply sorted_perm.
Qed.

Lemma suppress_threshold_one_keeps_all_witness :
  remove_overlapping_detections
    [hit "a" (box 0 0 16 10) 0.8; hit "a" (box 0 0 16 10) 0.9] 1
  = sorted by_confidence_desc [hit "a" (box 0 0 16 10) 0.8; hit "a" (box 0 0 16 10) 0.9]
  /\ remove_overlapping_detections
       [hit "a" (box 0 0 16 10) 0.8; hit "a" (box 0 0 16 10) 0.9] 1
     ≡ₚ [hit "a" (box 0 0 16 10) 0.8; hit "a" (box 0 0 16 10) 0.9].
Proof.
  apply (suppress_threshold_one_keeps_all
           [hit "a" (box 0 0 16 10) 0.8; hit "a" (box 0 0 16 10) 0.9] 1).
  discriminate.
Defined.

(** ** The matcher, continued *)

Section MatcherMore.
Context `{CV : cv2}.

Lemma scale_loop_all_skipped screen_gray template name threshold todo results :
  (forall scale, scale ∈ todo ->
      shape0 screen_gray < shape0 (resize template scale scale)
      \/ shape1 screen_gray < shape1 (resize template scale scale)) ->
  scale_loop screen_gray template name threshold todo results = Ok results.
Proof.
  revert results. induction todo as [|scale todo IH]; intros results Hskip; simpl; [done|].
  rewrite match_scale_skipped; [|apply Hskip; by left]. simpl.
  rewrite app_nil_r. apply IH. intros s Hs. apply Hskip. by right.
Qed.

Lemma scale_loop_refused screen_gray template name threshold todo results :
  is_scalar threshold = true ->
  threshold_value threshold = None ->
  (exists scale, scale ∈ todo
     /\ shape0 (resize template scale scale) <= shape0 screen_gray
     /\ shape1 (resize template scale scale) <= shape1 screen_gray) ->
  scale_loop screen_gray template name threshold todo results
  = Raise "TypeError: '>=' not supported".
Proof.
  intros Hscalar Hnone. revert results.
  induction todo as [|scale todo IH]; intros results (s & Hs & Hfit0 & Hfit1).
  { by apply elem_of_nil in Hs. }
  simpl. unfold match_scale at 1. cbv zeta.
  destruct (_ || _) eqn:Hskip.
  - simpl. apply IH. exists s. split; [|done].
    apply elem_of_cons in Hs as [->|Hs]; [|done].
    apply orb_true_iff in Hskip as [H|H]; apply Z.ltb_lt in H; lia.
  - rewrite (where_ge_scalar _ _ Hscalar). unfold ge_threshold. rewrite Hnone. reflexivity.
Qed.
End MatcherMore.

(** X7: every detection the matcher returns is an ["icon"] labelled with
    the requested name, and its confidence is the correlation score found
    at its position on the surface of one of the five scales.  When the
    threshold is a scalar it is a number, the position is not negative and
    the score passed numpy's comparison [result >= threshold]; that
    comparison is made in float32, so the score need not reach the
    threshold as a real number. *)
Theorem matcher_detections_pass_comparison `{CV : cv2} (screen_gray : gray)
    (template : ndarray) (name : string) (threshold : json) (out : list Detection) :
  find_template_matches screen_gray template name threshold = Ok out ->
  Forall (fun d =>
            type d = "icon" /\ text d = name
            /\ (exists scale,
                  scale ∈ scales
                  /\ at_yx (matchTemplate screen_gray
                                          (resize (grayscale template) scale scale))
                           (to_Z (y (bounds d))) (to_Z (x (bounds d)))
                     = Ok (confidence d))
            /\ (is_scalar threshold = true ->
                exists t,
                  threshold_value threshold = Some t
                  /\ float32_ge (confidence d) t = true
                  /\ 0 <= to_Z (x (bounds d)) /\ 0 <= to_Z (y (bounds d))))
         out.
Proof.
  intros Hout. apply Forall_forall. intros d Hd.
  destruct (find_template_matches_from_scale _ _ _ _ _ _ Hout Hd)
    as (scale & Hscale & Htext & _ & _ & _ & _ & _ & Htype & Hat & _ & Hpass).
  split; [done|]. split; [done|]. split; [by exists scale|done].
Qed.

Lemma matcher_detections_pass_comparison_witness :
  let CV := scripted_cv2 [[0.1; 0.95]; [0.2; 0.3]]%Q [] None None in
  Forall (fun d =>
            type d = "icon" /\ text d = "save"
            /\ (exists scale,
                  scale ∈ scales
                  /\ at_yx (matchTemplate (cvtColor_RGB2GRAY screen)
                                          (resize (grayscale patch) scale scale))
                           (to_Z (y (bounds d))) (to_Z (x (bounds d)))
                     = Ok (confidence d))
            /\ (is_scalar (JNum 0.8) = true ->
                exists t,
                  threshold_value (JNum 0.8) = Some t
                  /\ float32_ge (confidence d) t = true
                  /\ 0 <= to_Z (x (bounds d)) /\ 0 <= to_Z (y (bounds d))))
         [hit "save" (box 1 0 3 3) 0.95; hit "save" (box 1 0 5 5) 0.95].
Proof.
  intros CV.
  refine (matcher_detections_pass_comparison (cvtColor_RGB2GRAY screen) patch "save"
            (JNum 0.8) _ _).
  vm_compute. reflexivity.
Defined.

(** X8: the matcher's result is ranked and deduplicated: confidences do not
    increase along the list, and no two of its detections have an IoU above
    0.5. *)
Theorem matcher_result_ranked_apart `{CV : cv2} (screen_gray : gray) (template : ndarray)
    (name : string) (threshold : json) (out : list Detection) :
  find_template_matches screen_gray template name threshold = Ok out ->
  StronglySorted (fun a b => (confidence b <= confidence a)%Q) out
  /\ forall i j a b, (i < j)%nat -> out !! i = Some a -> out !! j = Some b ->
       (IoU (bounds a) (bounds b) <= 0.5)%Q.
Proof.
  unfold find_template_matches. cbv zeta.
  destruct (scale_loop _ _ _ _ _ _) as [results|e]; [|done].
  simpl. intros [= <-]. split.
  - eapply StronglySorted_sublist; [apply remove_overlapping_detections_sublist|].
    apply confidence_sorted.
  - intros i j a b Hij Hi Hj.
    assert (H : apart default_overlap_thresh a b).
    { eapply (StronglySorted_lookup _ _ i j); [|done..].
      rewrite remove_overlapping_detections_loop.
      apply suppress_loop_apart. constructor. }
    apply overlaps_IoU in H; [|done]. by rewrite IoU_sym.
Qed.

Lemma matcher_result_ranked_apart_witness :
  let CV := scripted_cv2 [[0.1; 0.95]; [0.2; 0.3]]%Q [] None None in
  (IoU (box 1 0 3 3) (box 1 0 5 5) <= 0.5)%Q.
Proof.
  intros CV.
  refine (proj2 (matcher_result_ranked_apart (cvtColor_RGB2GRAY screen) patch "save"
                   (JNum 0.8) [hit "save" (box 1 0 3 3) 0.95; hit "save" (box 1 0 5 5) 0.95] _)
                0%nat 1%nat (hit "save" (box 1 0 3 3) 0.95) (hit "save" (box 1 0 5 5) 0.95)
                _ _ _).
  - vm_compute. reflexivity.
  - lia.
  - reflexivity.
  - reflexivity.
Defined.

(** X9: a template that exceeds the screen at all five scales gives an
    empty result whatever the threshold is, even one that is not a number;
    a scalar threshold that is not a number ([null] or a string) raises as
    soon as one scale fits the screen.  (A list is left to numpy, which
    broadcasts it: see [list_threshold_is_broadcast].) *)
Theorem matcher_threshold_edge_cases `{CV : cv2} (screen_gray : gray) (template : ndarray)
    (name : string) (threshold : json) :
  ((forall scale, scale ∈ scales ->
       shape0 screen_gray < shape0 (resize (grayscale template) scale scale)
       \/ shape1 screen_gray < shape1 (resize (grayscale template) scale scale)) ->
   find_template_matches screen_gray template name threshold = Ok [])
  /\ (is_scalar threshold = true ->
      threshold_value threshold = None ->
      (exists scale, scale ∈ scales
         /\ shape0 (resize (grayscale template) scale scale) <= shape0 screen_gray
         /\ shape1 (resize (grayscale template) scale scale) <= shape1 screen_gray) ->
      find_template_matches screen_gray template name threshold
      = Raise "TypeError: '>=' not supported").
Proof.
  split.
  - intros Hskip. unfold find_template_matches. cbv zeta.
    by rewrite scale_loop_all_skipped.
  - intros Hscalar Hnone Hfit. unfold find_template_matches. cbv zeta.
    by rewrite scale_loop_refused.
Qed.

Example oversized_template_ignores_threshold :
  let CV := scripted_cv2 [[0.9]]%Q [] None None in
  find_template_matches (blank 0 2 2) patch "save" (JStr "high") = Ok []
  /\ find_template_matches (blank 0 4 4) patch "save" (JStr "high")
     = Raise "TypeError: '>=' not supported".
Proof. vm_compute. split; reflexivity. Qed.

(** ** The detectors' filters *)

Lemma aspect_above (n : Z) (d : positive) (w h : Z) :
  0 <= n -> Qltb (n # d) (aspect w h) = true -> 0 < h /\ n * h < Z.pos d * w.
Proof.
  intros Hn H. apply Qltb_lt in H. unfold aspect in H.
  destruct (0 <? h) eqn:E.
  - apply Z.ltb_lt in E. split; [done|].
    destruct h as [|p|p]; [lia| |lia].
    unfold Qlt, Qdiv, Qmult, Qinv, inject_Z in H. simpl in H. lia.
  - unfold Qlt in H. simpl in H. lia.
Qed.

Lemma aspect_below (n : Z) (d : positive) (w h : Z) :
  0 < h -> Qltb (aspect w h) (n # d) = true -> Z.pos d * w < n * h.
Proof.
  intros Hh H. apply Qltb_lt in H. unfold aspect in H.
  assert (E : (0 <? h) = true) by (by apply Z.ltb_lt). rewrite E in H.
  destruct h as [|p|p]; [lia| |lia].
  unfold Qlt, Qdiv, Qmult, Qinv, inject_Z in H. simpl in H. lia.
Qed.

Lemma in_top_band_above (screen_gray : gray) (py : Z) :
  in_top_band screen_gray py = true -> 20 * py < 3 * shape0 screen_gray.
Proof.
  unfold in_top_band. intros H. apply Qltb_lt in H.
  unfold Qlt, Qmult, inject_Z in H. simpl in H. lia.
Qed.

Lemma wrap_int32_small (z : Z) : - 2 ^ 31 <= z < 2 ^ 31 -> wrap_int32 z = z.
Proof.
  intros H. unfold wrap_int32. rewrite Z.mod_small; lia.
Qed.

Lemma wrap_uint16_range (z : Z) : 0 <= wrap_uint16 z < 65536.
Proof. unfold wrap_uint16. apply Z.mod_pos_bound. lia. Qed.

(** X10: what the filters of the contour and segment detectors guarantee
    of each returned box.  Checkbox: width and height strictly between 10
    and 30, width over height strictly between 0.8 and 1.2.  Maximize:
    width strictly between 10 and 40, the same aspect, top edge within the
    upper 15 percent of the screen.  Close: width over height strictly
    between 0.5 and 2.  Minimize: height 20 and width strictly between 18
    and 40. *)
Theorem detector_boxes_pass_filters `{CV : cv2} (screen_gray : gray) (screen_rgb : color) :
  Forall (fun d =>
            let w := to_Z (width (bounds d)) in
            let h := to_Z (height (bounds d)) in
            10 < w < 30 /\ 10 < h < 30 /\ 4 * h < 5 * w /\ 5 * w < 6 * h)
         (detect_checkboxes screen_gray)
  /\ Forall (fun d =>
               let w := to_Z (width (bounds d)) in
               let h := to_Z (height (bounds d)) in
               10 < w < 40 /\ 0 < h /\ 4 * h < 5 * w /\ 5 * w < 6 * h
               /\ 20 * to_Z (y (bounds d)) < 3 * shape0 screen_gray)
            (detect_maximize_buttons screen_gray screen_rgb)
  /\ Forall (fun d =>
               let w := to_Z (width (bounds d)) in
               let h := to_Z (height (bounds d)) in
               0 < h /\ h < 2 * w /\ w < 2 * h)
            (detect_close_buttons screen_gray screen_rgb)
  /\ Forall (fun d =>
               to_Z (height (bounds d)) = 20 /\ 18 < to_Z (width (bounds d)) < 40)
            (detect_minimize_buttons screen_gray screen_rgb).
Proof.
  repeat split; apply Forall_take.
  - apply Forall_omap_Some. intros c d. unfold checkbox_candidate.
    destruct (boundingRect c) as [[[bx b_y] w] h].
    destruct (Qltb _ (aspect w h)) eqn:Hlo; [|done].
    destruct (Qltb (aspect w h) _) eqn:Hhi; [|done].
    destruct (10 <? w) eqn:Hw1; [|done]. destruct (w <? 30) eqn:Hw2; [|done].
    destruct (10 <? h) eqn:Hh1; [|done]. destruct (h <? 30) eqn:Hh2; [|done].
    intros [= <-]. cbn.
    apply aspect_above in Hlo as [Hh Hlo]; [|lia].
    apply aspect_below in Hhi; [|done]. lia.
  - apply Forall_omap_Some. intros c d. unfold maximize_candidate. cbv zeta.
    destruct (_ =? _)%nat; [|done].
    destruct (boundingRect _) as [[[bx b_y] w] h].
    destruct (Qltb _ (aspect w h)) eqn:Hlo; [|done].
    destruct (Qltb (aspect w h) _) eqn:Hhi; [|done].
    destruct (10 <? w) eqn:Hw1; [|done]. destruct (w <? 40) eqn:Hw2; [|done].
    destruct (in_top_band screen_gray b_y) eqn:Htop; [|done].
    intros [= <-]. cbn.
    apply aspect_above in Hlo as [Hh Hlo]; [|lia].
    apply aspect_below in Hhi; [|done].
    apply in_top_band_above in Htop. lia.
  - apply Forall_omap_Some. intros c d. unfold close_candidate. cbv zeta.
    destruct (_ && _); [|done].
    destruct (boundingRect c) as [[[bx b_y] w] h].
    destruct (Qltb _ (aspect w h)) eqn:Hlo; [|done].
    destruct (Qltb (aspect w h) _) eqn:Hhi; [|done].
    intros [= <-]. cbn.
    apply aspect_above in Hlo as [Hh Hlo]; [|lia].
    apply aspect_below in Hhi; [|done]. lia.
  - unfold minimize_results. cbv zeta. destruct (HoughLinesP _ _ _ _); [|constructor].
    apply Forall_omap_Some. intros [[[x1 y1] x2] y2] d. unfold minimize_candidate.
    destruct (_ <? 3); [|done].
    destruct (8 <? _) eqn:H1; [|done]. destruct (_ <? 30) eqn:H2; [|done].
    destruct (in_top_band _ _); [|done].
    intros [= <-]. cbn. split; [done|].
    apply Z.ltb_lt in H1, H2. rewrite wrap_int32_small; lia.
Qed.

Example checkbox_filter_rejects_wide_box :
  let CV := scripted_cv2 [] [rect_contour 5 5 20 20; rect_contour 40 5 29 20] None None in
  detect_checkboxes (cvtColor_RGB2GRAY screen) = [hit "checkbox" (box 5 5 20 20) 0.5].
Proof. vm_compute. reflexivity. Qed.

(** X11: the circle detectors compute their boxes in [uint16]: the
    coordinates of every radio-button and search box lie in 0..65535 and
    the box is square.  A radio-button circle that reaches beyond the left
    edge (centre column below the radius) gets the column wrapped around,
    [cx - r + 65536], and not a negative one. *)
Theorem circle_boxes_wrap `{CV : cv2} (screen_gray : gray) :
  Forall (fun d =>
            0 <= to_Z (x (bounds d)) < 65536 /\ 0 <= to_Z (y (bounds d)) < 65536
            /\ to_Z (width (bounds d)) = to_Z (height (bounds d)))
         (detect_radio_buttons screen_gray)
  /\ Forall (fun d =>
               0 <= to_Z (x (bounds d)) < 65536 /\ 0 <= to_Z (y (bounds d)) < 65536
               /\ to_Z (width (bounds d)) = to_Z (height (bounds d)))
            (returned (detect_search_icons screen_gray))
  /\ (forall cx cy r,
         0 <= cx < r -> r < 65536 ->
         to_Z (x (bounds (radio_candidate (cx, cy, r)))) = cx - r + 65536).
Proof.
  split; [|split].
  - apply Forall_take. unfold radio_results. cbv zeta.
    destruct (HoughCircles _ _ _ _ _ _); [|constructor].
    apply Forall_forall. intros d Hd. rewrite map_fmap in Hd.
    apply list_elem_of_fmap in Hd as ([[cx cy] r] & -> & _). cbn.
    repeat split; apply wrap_uint16_range.
  - rewrite detect_search_icons_take. apply Forall_take.
    destruct (search_results screen_gray) as [results|e] eqn:Hresults; [|constructor].
    apply Forall_forall. intros d Hd.
    destruct (search_results_from_candidates _ _ _ Hresults Hd) as [[[cx cy] r] Hc].
    revert Hc. unfold search_candidate. cbv zeta.
    destruct (is_empty _); [done|].
    destruct (HoughLinesP _ _ _ _); [|done]. destruct (_ <? _)%nat; [|done].
    intros [= <-]. cbn. repeat split; apply wrap_uint16_range.
  - intros cx cy r Hcx Hr. cbn [radio_candidate icon bounds x to_Z].
    unfold wrap_uint16. rewrite <- (Z.mod_add (cx - r) 1 (2 ^ 16)) by lia.
    apply Z.mod_small. lia.
Qed.

Example radio_circle_at_the_left_edge :
  let CV := scripted_cv2 [] [] None (Some [(3, 20, 6)]%Q) in
  detect_radio_buttons (cvtColor_RGB2GRAY screen)
  = [hit "radio" (box 65533 14 12 12) 0.6].
Proof. vm_compute. reflexivity. Qed.

(** ** The dispatcher and the handler, continued *)

(** Evaluate the alias tests of the dispatcher on a literal name. *)
Ltac dispatch :=
  unfold detect_common_ui_elements;
  repeat match goal with
         | |- context [in_names ?a ?l] =>
             let b := eval vm_compute in (in_names a l) in
             change (in_names a l) with b; cbv iota
         end.

(** X12: the aliases of a detector are synonyms: asking under any alias of
    a group gives exactly the detections of asking under the detector's own
    name; and the threshold plays no part in the heuristic detectors. *)
Theorem aliases_are_synonyms `{CV : cv2} (screen_gray : gray) (screen_rgb : color)
    (threshold : json) :
  Forall (fun group =>
            Forall (fun alias =>
                      detect_common_ui_elements screen_gray screen_rgb alias threshold
                      = detect_common_ui_elements screen_gray screen_rgb (fst group) threshold)
                   (snd group))
         alias_groups
  /\ forall icon_name other,
       detect_common_ui_elements screen_gray screen_rgb icon_name other
       = detect_common_ui_elements screen_gray screen_rgb icon_name threshold.
Proof.
  split; [|reflexivity].
  unfold alias_groups.
  repeat first [apply Forall_nil_2 | apply Forall_cons_2]; cbn [fst snd]; dispatch;
    reflexivity.
Qed.

Section HandlerMore.
Context `{CV : cv2}.

Lemma minimize_results_numpy screen_gray :
  Forall (fun d => serializable d = false) (minimize_results screen_gray).
Proof.
  unfold minimize_results. cbv zeta. destruct (HoughLinesP _ _ _ _); [|constructor].
  apply Forall_omap_Some. unfold minimize_candidate. candidate.
Qed.

Lemma json_response_numpy (found : list Detection) :
  found <> [] -> Forall (fun d => serializable d = false) found ->
  json_response found = Raise "TypeError: Object of type int32 is not JSON serializable".
Proof.
  intros Hne Hall. unfold json_response.
  destruct found as [|d found]; [done|].
  apply Forall_cons in Hall as [Hd _]. simpl. by rewrite Hd.
Qed.

Lemma detect_common_ui_elements_length screen_gray screen_rgb icon_name threshold :
  (length (returned (detect_common_ui_elements screen_gray screen_rgb icon_name threshold))
   <= 10)%nat.
Proof.
  destruct (detect_common_ui_elements_cases screen_gray screen_rgb icon_name threshold)
    as [[_ ->]|[[_ ->]|[[_ ->]|[[_ ->]|[[_ ->]|[[_ ->]|[[_ ->]|[_ ->]]]]]]]];
    [..|simpl; lia];
    try rewrite detect_search_icons_take; simpl;
    unfold detect_close_buttons, detect_minimize_buttons, detect_maximize_buttons,
      detect_checkboxes, detect_radio_buttons, detect_hamburger_menu;
    rewrite length_take; lia.
Qed.
End HandlerMore.

(** X13: when no template is registered under the requested name, the
    threshold of the request plays no part: any value, or none, gives the
    same response. *)
Theorem heuristic_path_ignores_threshold `{CV : cv2} (ICON_TEMPLATES : gmap string ndarray)
    (screenshot : color) (data : gmap string json) (icon_name : string) (v : json) :
  json_lower (get data "icon" (JStr "")) = Ok icon_name ->
  ICON_TEMPLATES !! icon_name = None ->
  display_find_icons ICON_TEMPLATES screenshot (<[ "threshold" := v ]> data)
  = display_find_icons ICON_TEMPLATES screenshot data.
Proof.
  intros Hname Hnone. unfold display_find_icons.
  assert (Hicon : get (<[ "threshold" := v ]> data) "icon" (JStr "") = get data "icon" (JStr "")).
  { unfold get. by rewrite lookup_insert_ne. }
  rewrite (find_icons_body_no_template _ _ _ icon_name); [|by rewrite Hicon|done].
  by rewrite (find_icons_body_no_template _ _ _ icon_name Hname Hnone).
Qed.

Lemma heuristic_path_ignores_threshold_witness :
  let CV := scripted_cv2 [] [rect_contour 0 0 16 10] None None in
  display_find_icons {[ "save" := patch ]} screen (<[ "threshold" := JStr "high" ]> (ask "x"))
  = display_find_icons {[ "save" := patch ]} screen (ask "x").
Proof.
  intros CV.
  refine (heuristic_path_ignores_threshold {[ "save" := patch ]} screen (ask "x") "x"
            (JStr "high") _ _).
  - vm_compute. reflexivity.
  - vm_compute. reflexivity.
Defined.

(** X14: the icon name is matched without regard to case: two requests
    whose names have the same lower-case form, with the same threshold, get
    the same response. *)
Theorem find_icons_ignores_case `{CV : cv2} (ICON_TEMPLATES : gmap string ndarray)
    (screenshot : color) (data1 data2 : gmap string json) (name1 name2 : string) :
  get data1 "icon" (JStr "") = JStr name1 ->
  get data2 "icon" (JStr "") = JStr name2 ->
  lower name1 = lower name2 ->
  get data1 "threshold" (JNum 0.8) = get data2 "threshold" (JNum 0.8) ->
  display_find_icons ICON_TEMPLATES screenshot data1
  = display_find_icons ICON_TEMPLATES screenshot data2.
Proof.
  intros H1 H2 Hlower Hthreshold. unfold display_find_icons, find_icons_body.
  rewrite H1, H2, Hthreshold. simpl. by rewrite Hlower.
Qed.

Lemma find_icons_ignores_case_witness :
  let CV := scripted_cv2 [[0.1; 0.95]; [0.2; 0.3]]%Q [] None None in
  display_find_icons {[ "save" := patch ]} screen (ask "SAVE")
  = display_find_icons {[ "save" := patch ]} screen (ask "Save").
Proof.
  intros CV.
  refine (find_icons_ignores_case {[ "save" := patch ]} screen (ask "SAVE") (ask "Save")
            "SAVE" "Save" _ _ _ _); vm_compute; reflexivity.
Defined.

(** X15: a minimize request that finds anything fails: the minimize
    detector leaves numpy integers in its boxes, the encoder refuses them,
    and the handler answers with an error, status 500 and no icons. *)
Theorem minimize_hits_fail `{CV : cv2} (ICON_TEMPLATES : gmap string ndarray)
    (screenshot : color) (data : gmap string json) (icon_name : string) :
  json_lower (get data "icon" (JStr "")) = Ok icon_name ->
  icon_name ∈ ["minimize"; "minimiser"; "_"; "moins"] ->
  ICON_TEMPLATES !! icon_name = None ->
  detect_minimize_buttons (cvtColor_RGB2GRAY screenshot) screenshot <> [] ->
  display_find_icons ICON_TEMPLATES screenshot data
  = IconsError "TypeError: Object of type int32 is not JSON serializable"
  /\ status (display_find_icons ICON_TEMPLATES screenshot data) = 500
  /\ icons (display_find_icons ICON_TEMPLATES screenshot data) = [].
Proof.
  intros Hname Halias Hnone Hhits.
  assert (H : display_find_icons ICON_TEMPLATES screenshot data
              = IconsError "TypeError: Object of type int32 is not JSON serializable");
    [|by rewrite H].
  unfold display_find_icons.
  rewrite (find_icons_body_no_template _ _ _ icon_name Hname Hnone).
  assert (Hdispatch :
            detect_common_ui_elements (cvtColor_RGB2GRAY screenshot) screenshot icon_name
                                      (get data "threshold" (JNum 0.8))
            = Ok (detect_minimize_buttons (cvtColor_RGB2GRAY screenshot) screenshot)).
  { repeat (apply elem_of_cons in Halias as [->|Halias]; [by dispatch|]).
    by apply elem_of_nil in Halias. }
  rewrite Hdispatch. simpl. rewrite json_response_numpy; [done|done|].
  apply Forall_take, minimize_results_numpy.
Qed.

Lemma minimize_hits_fail_witness :
  let CV := scripted_cv2 [] [] (Some [(10, 3, 30, 3)]) None in
  display_find_icons ∅ screen (ask "Moins")
  = IconsError "TypeError: Object of type int32 is not JSON serializable"
  /\ status (display_find_icons ∅ screen (ask "Moins")) = 500
  /\ icons (display_find_icons ∅ screen (ask "Moins")) = [].
Proof.
  intros CV.
  refine (minimize_hits_fail ∅ screen (ask "Moins") "moins" _ _ _ _).
  - vm_compute. reflexivity.
  - do 3 right. left.
  - vm_compute. reflexivity.
  - vm_compute. discriminate.
Defined.

(** X16: a request that falls through to the heuristic detectors is
    answered with at most ten icons. *)
Theorem heuristic_response_at_most_ten `{CV : cv2} (ICON_TEMPLATES : gmap string ndarray)
    (screenshot : color) (data : gmap string json) (icon_name : string) :
  json_lower (get data "icon" (JStr "")) = Ok icon_name ->
  ICON_TEMPLATES !! icon_name = None ->
  (length (icons (display_find_icons ICON_TEMPLATES screenshot data)) <= 10)%nat.
Proof.
  intros Hname Hnone. unfold display_find_icons.
  rewrite (find_icons_body_no_template _ _ _ icon_name Hname Hnone).
  pose proof (detect_common_ui_elements_length (cvtColor_RGB2GRAY screenshot) screenshot
                icon_name (get data "threshold" (JNum 0.8))) as Hlen.
  destruct (detect_common_ui_elements _ _ _ _) as [found|e]; simpl; [|lia].
  unfold json_response. destruct (forallb _ _); simpl; [done|lia].
Qed.

Lemma heuristic_response_at_most_ten_witness :
  let CV := scripted_cv2 [] [] None (Some six_circles) in
  (length (icons (display_find_icons ∅ screen (ask "radio"))) <= 10)%nat.
Proof.
  intros CV.
  refine (heuristic_response_at_most_ten ∅ screen (ask "radio") "radio" _ _);
    vm_compute; reflexivity.
Defined.

(** ** The registry, continued *)

Lemma ascii_lower_idemp (c : ascii) : ascii_lower (ascii_lower c) = ascii_lower c.
Proof. destruct c as [[] [] [] [] [] [] [] []]; reflexivity. Qed.

Lemma lower_idemp (s : string) : lower (lower s) = lower s.
Proof.
  induction s as [|c s IH]; simpl; [done|]. by rewrite ascii_lower_idemp, IH.
Qed.

Section RegistryMore.
Context `{CV : cv2}.

(** Every outcome of a registration request. *)
Lemma display_register_icon_cases ICON_TEMPLATES data :
  (exists requested template,
      get data "name" (JStr "") = JStr requested
      /\ lower requested <> ""
      /\ (bytes ← json_b64decode (get data "template" (JStr "")); imdecode bytes)
         = Ok (Some template)
      /\ display_register_icon ICON_TEMPLATES data
         = (<[lower requested := Color template]> ICON_TEMPLATES,
            RegisterOk (lower requested) (shape1 template) (shape0 template)))
  \/ (exists code e,
         (code = 400 \/ code = 500)
         /\ display_register_icon ICON_TEMPLATES data = (ICON_TEMPLATES, RegisterError code e)).
Proof.
  unfold display_register_icon, register_icon_body.
  destruct (get data "name" (JStr "")) as [| |q|requested| |]; simpl;
    try (right; eexists 500, _; split; [by right|done]).
  destruct (String.eqb (lower requested) "") eqn:Hempty; simpl.
  { right. eexists 400, _. split; [by left|done]. }
  apply String.eqb_neq in Hempty.
  destruct (negb _); simpl; [right; eexists 400, _; split; [by left|done]|].
  destruct (json_b64decode _) as [bytes|e]; simpl;
    [|right; eexists 500, _; split; [by right|done]].
  destruct (imdecode bytes) as [[template|]|e]; simpl.
  - left. by exists requested, template.
  - right. eexists 400, _. split; [by left|done].
  - right. eexists 500, _. split; [by right|done].
Qed.

(** Whether and what a request registers does not depend on the registry. *)
Lemma display_register_icon_ok_any ICON_TEMPLATES data registry name w h :
  display_register_icon ICON_TEMPLATES data = (registry, RegisterOk name w h) ->
  exists template,
    forall other,
      display_register_icon other data
      = (<[name := Color template]> other, RegisterOk name w h).
Proof.
  unfold display_register_icon, register_icon_body.
  destruct (json_lower _) as [n|e1]; simpl; [|congruence].
  destruct (_ || _); simpl; [congruence|].
  destruct (json_b64decode _) as [bytes|e2]; simpl; [|congruence].
  destruct (imdecode bytes) as [[t|]|e3]; simpl; try congruence.
  intros [= <- <- <- <-]. by exists t.
Qed.

Lemma registry_after_snoc requests data :
  registry_after (requests ++ [data])
  = fst (display_register_icon (registry_after requests) data).
Proof. unfold registry_after. by rewrite foldl_app. Qed.

Lemma registry_after_keys requests :
  map_Forall (fun name template =>
                name <> "" /\ lower name = name /\ exists c, template = Color c)
             (registry_after requests).
Proof.
  induction requests as [|data requests IH] using rev_ind.
  - apply map_Forall_empty.
  - rewrite registry_after_snoc.
    destruct (display_register_icon_cases (registry_after requests) data)
      as [(requested & template & _ & Hne & _ & ->)|(code & e & _ & ->)]; simpl; [|done].
    apply map_Forall_insert_2; [|done].
    split; [done|]. split; [apply lower_idemp|by eexists].
Qed.
End RegistryMore.

(** X17: a registration request either succeeds, and then the name it
    reports is the lower-cased name of the request and is not empty, the
    request's template decodes (base64, then [cv2.imdecode]) to an image,
    that image is what the registry now holds under the name, the rest of
    the registry being as before, and the reported width and height are the
    image's; or it is refused with status 400 or 500, and then the registry
    is unchanged. *)
Theorem registration_outcome `{CV : cv2} (ICON_TEMPLATES : gmap string ndarray)
    (data : gmap string json) :
  match display_register_icon ICON_TEMPLATES data with
  | (registry, RegisterOk name w h) =>
      exists requested template,
        get data "name" (JStr "") = JStr requested
        /\ name = lower requested /\ name <> ""
        /\ (bytes ← json_b64decode (get data "template" (JStr "")); imdecode bytes)
           = Ok (Some template)
        /\ registry = <[name := Color template]> ICON_TEMPLATES
        /\ w = shape1 template /\ h = shape0 template
  | (registry, RegisterError code e) =>
      registry = ICON_TEMPLATES /\ (code = 400 \/ code = 500)
  end.
Proof.
  destruct (display_register_icon_cases ICON_TEMPLATES data)
    as [(requested & template & Hname & Hne & Hdecode & ->)|(code & e & Hcode & ->)];
    [|done].
  by exists requested, template.
Qed.

Example registration_refusals :
  let CV := scripted_cv2 [] [] None None in
  display_register_icon ∅ (offer "save" "") = (∅, RegisterError 400 "Name and template required")
  /\ display_register_icon ∅ {[ "template" := JStr "AB" ]}
     = (∅, RegisterError 400 "Name and template required")
  /\ display_register_icon ∅ {[ "name" := JNum 7; "template" := JStr "AB" ]}
     = (∅, RegisterError 500 "AttributeError: object has no attribute 'lower'").
Proof. vm_compute. repeat split. Qed.

(** X18: whatever registration requests the server has served since it
    started, every key of the registry is a non-empty lower-case name and
    every stored template is a three-channel image. *)
Theorem registry_keys_lower_case `{CV : cv2} (requests : list (gmap string json)) :
  map_Forall (fun name template =>
                name <> "" /\ lower name = name /\ exists c, template = Color c)
             (registry_after requests).
Proof. apply registry_after_keys. Qed.

(** X19: a detection request without an icon name (no ["icon"] key, or an
    empty string) is answered with success and no icons, whatever has been
    registered before. *)
Theorem missing_icon_is_empty_success `{CV : cv2} (requests : list (gmap string json))
    (screenshot : color) (data : gmap string json) :
  get data "icon" (JStr "") = JStr "" ->
  display_find_icons (registry_after requests) screenshot data = IconsOk [].
Proof.
  intros Hicon. unfold display_find_icons.
  rewrite (find_icons_body_no_template _ _ _ ""); [|by rewrite Hicon|].
  - by dispatch.
  - destruct (registry_after requests !! "") as [template|] eqn:E; [|done].
    by apply registry_after_keys in E as [? _].
Qed.

Lemma missing_icon_is_empty_success_witness :
  let CV := scripted_cv2 [[0.9]]%Q [rect_contour 0 0 16 10] None None in
  display_find_icons (registry_after [offer "Save" "AB"; offer "" "CD"]) screen ∅ = IconsOk [].
Proof.
  intros CV.
  refine (missing_icon_is_empty_success [offer "Save" "AB"; offer "" "CD"] screen ∅ _).
  vm_compute. reflexivity.
Defined.

(** X20: registration and detection fit together: after a successful
    registration, a detection request for the same name in any letter case
    runs the matcher on the registered image, and a non-empty matcher
    result is the response. *)
Theorem registered_template_is_matched `{CV : cv2} (ICON_TEMPLATES registry : gmap string ndarray)
    (offered asked : gmap string json) (screenshot : color) (name requested : string)
    (w h : Z) :
  display_register_icon ICON_TEMPLATES offered = (registry, RegisterOk name w h) ->
  get asked "icon" (JStr "") = JStr requested ->
  lower requested = name ->
  exists template,
    (bytes ← json_b64decode (get offered "template" (JStr "")); imdecode bytes)
    = Ok (Some template)
    /\ registry !! lower requested = Some (Color template)
    /\ forall out,
         find_template_matches (cvtColor_RGB2GRAY screenshot) (Color template) name
                               (get asked "threshold" (JNum 0.8)) = Ok out ->
         out <> [] ->
         display_find_icons registry screenshot asked = IconsOk out.
Proof.
  intros Hreg Hicon Hname.
  apply display_register_icon_ok in Hreg as (r & template & _ & _ & Hdecode & ->).
  exists template. split; [done|]. rewrite Hname. split; [apply lookup_insert_eq|].
  intros out Hout Hne. unfold display_find_icons.
  rewrite (find_icons_body_template _ _ _ name (Color template) out);
    [|by rewrite Hicon; simpl; rewrite Hname|apply lookup_insert_eq|done].
  destruct out as [|d out]; [done|].
  rewrite json_response_serializable; [done|].
  by eapply find_template_matches_serializable.
Qed.

Lemma registered_template_is_matched_witness :
  let CV := scripted_cv2 [[0.1; 0.95]; [0.2; 0.3]]%Q [] None None in
  exists template,
    (bytes ← json_b64decode (get (offer "Save" "ABCD") "template" (JStr "")); imdecode bytes)
    = Ok (Some template)
    /\ fst (display_register_icon ∅ (offer "Save" "ABCD")) !! lower "SAVE"
       = Some (Color template)
    /\ forall out,
         find_template_matches (cvtColor_RGB2GRAY screen) (Color template) "save"
                               (get (ask "SAVE") "threshold" (JNum 0.8)) = Ok out ->
         out <> [] ->
         display_find_icons (fst (display_register_icon ∅ (offer "Save" "ABCD"))) screen
                            (ask "SAVE") = IconsOk out.
Proof.
  intros CV.
  refine (registered_template_is_matched ∅ (fst (display_register_icon ∅ (offer "Save" "ABCD")))
            (offer "Save" "ABCD") (ask "SAVE") screen "save" "SAVE" 4 1 _ _ _);
    vm_compute; reflexivity.
Defined.

(** X21: registering is idempotent: serving the same successful request a
    second time leaves the registry as the first time left it and gives
    the same response. *)
Theorem register_twice_is_once `{CV : cv2} (ICON_TEMPLATES registry : gmap string ndarray)
    (data : gmap string json) (name : string) (w h : Z) :
  display_register_icon ICON_TEMPLATES data = (registry, RegisterOk name w h) ->
  display_register_icon registry data = (registry, RegisterOk name w h).
Proof.
  intros Hreg.
  destruct (display_register_icon_ok_any _ _ _ _ _ _ Hreg) as [template Hany].
  rewrite Hany in Hreg. injection Hreg as <-.
  rewrite Hany. by rewrite insert_insert_eq.
Qed.

Lemma register_twice_is_once_witness :
  let CV := scripted_cv2 [] [] None None in
  display_register_icon (fst (display_register_icon {[ "save" := patch ]} (offer "Save" "AB")))
                        (offer "Save" "AB")
  = (fst (display_register_icon {[ "save" := patch ]} (offer "Save" "AB")),
     RegisterOk "save" 2 1).
Proof.
  intros CV.
  refine (register_twice_is_once {[ "save" := patch ]} _ (offer "Save" "AB") "save" 2 1 _).
  vm_compute. reflexivity.
Defined.

(** ** Text search *)

Example find_file_on_three_words :
  let OCR := scripted_ocr (Ok three_words) in
  display_find screen {[ "query" := JStr "FILE" ]}
  = [{| type := "text"; text := "File"; bounds := box 10 5 30 12; confidence := 96 / 100 |}].
Proof. vm_compute. reflexivity. Qed.

Lemma prefix_append (p s : string) :
  String.prefix p s = true <-> exists post, s = p +:+ post.
Proof.
  revert s. induction p as [|a p IH]; intros s.
  - split; [|by destruct s]. intros _. by exists s.
  - destruct s as [|b s]; simpl.
    + split; [done|]. by intros [post H].
    + destruct (ascii_dec a b) as [->|Hab].
      * rewrite IH. split; intros [post H]; exists post; [by rewrite H|by injection H].
      * split; [done|]. intros [post H]. by injection H.
Qed.

Lemma contains_append (needle hay : string) :
  contains needle hay = true <-> exists pre post, hay = pre +:+ needle +:+ post.
Proof.
  induction hay as [|c hay IH].
  - cbn [contains]. rewrite orb_false_r, prefix_append. split.
    + intros [post H]. by exists "", post.
    + intros (pre & post & H). destruct pre; [by exists post|done].
  - cbn [contains]. rewrite orb_true_iff, prefix_append, IH. split.
    + intros [[post H]|(pre & post & H)].
      * by exists "", post.
      * exists (String c pre), post. simpl. by rewrite H.
    + intros (pre & post & H). destruct pre as [|c' pre].
      * left. by exists post.
      * right. injection H as _ H. by exists pre, post.
Qed.

Lemma index_Ok {A : Type} (l : list A) (i : nat) (a : A) :
  index l i = Ok a <-> l !! i = Some a.
Proof. unfold index. destruct (l !! i); split; congruence. Qed.

Lemma find_element_Some (q : string) (ocr_data : ocr) (i : nat) (word : string)
    (d : Detection) :
  find_element (JStr q) ocr_data i word = Ok (Some d) <->
  text d = word
  /\ exists bx b_y w h conf,
       ocr_left ocr_data !! i = Some bx /\ ocr_top ocr_data !! i = Some b_y
       /\ ocr_width ocr_data !! i = Some w /\ ocr_height ocr_data !! i = Some h
       /\ ocr_conf ocr_data !! i = Some conf
       /\ d = {| type := "text"; text := word; bounds := box bx b_y w h;
                 confidence := (conf / 100)%Q |}
       /\ strip word <> ""
       /\ contains (lower q) (lower word) = true
       /\ (30 < conf)%Q.
Proof.
  unfold find_element, index. simpl. split.
  - destruct (String.eqb (strip word) "") eqn:Hblank; simpl; [done|].
    apply String.eqb_neq in Hblank.
    destruct (contains _ _) eqn:Hin; [|done].
    destruct (ocr_left ocr_data !! i) as [bx|]; simpl; [|done].
    destruct (ocr_top ocr_data !! i) as [b_y|]; simpl; [|done].
    destruct (ocr_width ocr_data !! i) as [w|]; simpl; [|done].
    destruct (ocr_height ocr_data !! i) as [h|]; simpl; [|done].
    destruct (ocr_conf ocr_data !! i) as [conf|]; simpl; [|done].
    destruct (Qltb 30 conf) eqn:Hconf; [|done].
    intros [= <-]. split; [done|]. exists bx, b_y, w, h, conf.
    repeat split; try done. by apply Qltb_lt.
  - intros (_ & bx & b_y & w & h & conf & -> & -> & -> & -> & -> & -> & Hblank & -> & Hconf).
    apply String.eqb_neq in Hblank. rewrite Hblank. simpl.
    apply Qltb_lt in Hconf. by rewrite Hconf.
Qed.

Lemma find_loop_sound (query : json) (ocr_data : ocr) (i : nat) (words : list string)
    (elements out : list Detection) :
  find_loop query ocr_data i words elements = Ok out ->
  exists more,
    out = elements ++ more
    /\ (text <$> more) `sublist_of` words
    /\ Forall (fun d => exists j,
                 words !! j = Some (text d)
                 /\ find_element query ocr_data (i + j) (text d) = Ok (Some d)) more.
Proof.
  revert i elements. induction words as [|word words IH]; intros i elements; simpl.
  - intros [= <-]. exists []. by rewrite app_nil_r.
  - destruct (find_element query ocr_data i word) as [found|e] eqn:Hfound; [|done]. simpl.
    intros Hout. apply IH in Hout as (more & -> & Hsub & Hall).
    assert (Hshift : Forall (fun d => exists j,
                (word :: words) !! j = Some (text d)
                /\ find_element query ocr_data (i + j) (text d) = Ok (Some d)) more).
    { eapply Forall_impl; [exact Hall|]. intros d (j & Hj & Hd).
      exists (S j). split; [done|]. by rewrite Nat.add_succ_r. }
    destruct found as [element|].
    + exists (element :: more). rewrite <- app_assoc. split; [done|].
      assert (Hword : text element = word).
      { destruct query as [| | |q| |]; try (unfold find_element in Hfound; simpl in Hfound;
          by destruct (negb _)).
        by apply find_element_Some in Hfound as [? _]. }
      split.
      * rewrite fmap_cons, Hword. by constructor.
      * constructor; [|done]. exists 0%nat. rewrite Nat.add_0_r, Hword. done.
    + exists more. split; [done|]. split; [by constructor|done].
Qed.

Lemma find_loop_complete (q : string) (ocr_data : ocr) (i : nat) (words : list string)
    (elements : list Detection) :
  (forall j, (j < length words)%nat ->
     (i + j < length (ocr_left ocr_data))%nat /\ (i + j < length (ocr_top ocr_data))%nat
     /\ (i + j < length (ocr_width ocr_data))%nat /\ (i + j < length (ocr_height ocr_data))%nat
     /\ (i + j < length (ocr_conf ocr_data))%nat) ->
  exists out,
    find_loop (JStr q) ocr_data i words elements = Ok out
    /\ (forall d, d ∈ elements -> d ∈ out)
    /\ forall j word d,
         words !! j = Some word ->
         find_element (JStr q) ocr_data (i + j) word = Ok (Some d) -> d ∈ out.
Proof.
  revert i elements. induction words as [|word words IH]; intros i elements Hcols; simpl.
  - exists elements. split; [done|]. split; [done|]. intros j word d Hj. done.
  - assert (exists found, find_element (JStr q) ocr_data i word = Ok found) as [found Hfound].
    { destruct (Hcols 0%nat ltac:(simpl; lia)) as (H1 & H2 & H3 & H4 & H5).
      rewrite Nat.add_0_r in H1, H2, H3, H4, H5.
      apply lookup_lt_is_Some_2 in H1 as [bx H1], H2 as [b_y H2], H3 as [w H3],
        H4 as [h H4], H5 as [conf H5].
      unfold find_element, index. simpl. rewrite H1, H2, H3, H4, H5. simpl.
      destruct (negb _); [|by eexists]. destruct (contains _ _); [|by eexists].
      destruct (Qltb 30 conf); by eexists. }
    rewrite Hfound. simpl.
    destruct (IH (S i) (match found with Some e => elements ++ [e] | None => elements end))
      as (out & Hout & Hkeep & Hall).
    { intros j Hj. specialize (Hcols (S j) ltac:(simpl; lia)).
      by rewrite Nat.add_succ_r in Hcols. }
    exists out. split; [done|]. split.
    + intros d Hd. apply Hkeep. destruct found; [|done]. apply elem_of_app. by left.
    + intros [|j] w d Hj Hd.
      * injection Hj as <-. rewrite Nat.add_0_r, Hfound in Hd. injection Hd as ->.
        apply Hkeep, elem_of_app. right. by left.
      * apply (Hall j w d Hj). by rewrite Nat.add_succ_r in Hd.
Qed.

(** X22: every element [display_find] returns comes from a row of the OCR
    table: its text is that row's word, which is not blank and contains the
    query when both are lower-cased, its box is the row's, and its
    confidence is the row's score over 100, above 0.3.  The elements come
    in the order of the table.  When the OCR engine fails the answer is the
    empty list. *)
Theorem find_results_come_from_rows `{OCR : pytesseract} (screenshot : color)
    (data : gmap string json) :
  match image_to_data screenshot with
  | Ok ocr_data =>
      Forall (fun d =>
                exists q i,
                  get data "query" (JStr "") = JStr q
                  /\ from_row q ocr_data i d
                  /\ (0.3 < confidence d)%Q)
             (display_find screenshot data)
      /\ (text <$> display_find screenshot data) `sublist_of` ocr_text ocr_data
  | Raise _ => display_find screenshot data = []
  end.
Proof.
  unfold display_find. cbv zeta.
  destruct (image_to_data screenshot) as [ocr_data|e]; simpl; [|done].
  destruct (find_loop _ _ _ _ _) as [out|e] eqn:Hloop; [|split; [constructor|apply sublist_nil_l]].
  apply find_loop_sound in Hloop as (more & -> & Hsub & Hall). simpl.
  split; [|done].
  eapply Forall_impl; [exact Hall|]. intros d (j & Hj & Hd). simpl in Hd.
  destruct (get data "query" (JStr "")) as [| | |q| |];
    try (unfold find_element in Hd; simpl in Hd; by destruct (negb _)).
  apply find_element_Some in Hd
    as (_ & bx & b_y & w & h & conf & H1 & H2 & H3 & H4 & H5 & Hd & Hblank & Hin & Hconf).
  exists q, j. split; [done|]. split.
  - exists bx, b_y, w, h, conf. repeat split; try done.
    by apply contains_append.
  - rewrite Hd. cbn [confidence].
    apply Qlt_shift_div_l; [done|].
    eapply Qle_lt_trans; [|exact Hconf]. done.
Qed.

Example find_answers_empty_when_ocr_fails :
  let OCR := scripted_ocr (Raise "TesseractNotFoundError") in
  display_find screen {[ "query" := JStr "file" ]} = [].
Proof. reflexivity. Qed.

(** X23: a query that is not a string never makes [display_find] fail: the
    answer is the empty list. *)
Theorem find_with_other_query_is_empty `{OCR : pytesseract} (screenshot : color)
    (data : gmap string json) :
  (forall q, get data "query" (JStr "") <> JStr q) ->
  display_find screenshot data = [].
Proof.
  intros Hquery. unfold display_find. cbv zeta.
  destruct (image_to_data screenshot) as [ocr_data|e]; simpl; [|done].
  destruct (find_loop _ _ _ _ _) as [out|e] eqn:Hloop; [|done].
  apply find_loop_sound in Hloop as (more & -> & _ & Hall). simpl.
  destruct more as [|d more]; [done|].
  apply Forall_cons in Hall as [(j & _ & Hd) _]. simpl in Hd.
  destruct (get data "query" (JStr "")) as [| | |q| |] eqn:Hq;
    try (unfold find_element in Hd; simpl in Hd; by destruct (negb _)).
  by destruct (Hquery q).
Qed.

Lemma find_with_other_query_is_empty_witness :
  let OCR := scripted_ocr (Ok three_words) in
  display_find screen {[ "query" := JNum 7 ]} = [].
Proof.
  intros OCR.
  refine (find_with_other_query_is_empty screen {[ "query" := JNum 7 ]} _).
  intros q H. vm_compute in H. discriminate.
Defined.

(** X24: when every column of the OCR table has an entry for every word,
    [display_find] misses nothing: each word that is not blank, contains
    the query when both are lower-cased (as every word does for the empty
    query) and scores above 30 is returned, with its box and its score
    over 100. *)
Theorem find_returns_every_match `{OCR : pytesseract} (screenshot : color)
    (data : gmap string json) (ocr_data : ocr) (q : string) :
  image_to_data screenshot = Ok ocr_data ->
  get data "query" (JStr "") = JStr q ->
  (length (ocr_text ocr_data) <= length (ocr_left ocr_data))%nat ->
  (length (ocr_text ocr_data) <= length (ocr_top ocr_data))%nat ->
  (length (ocr_text ocr_data) <= length (ocr_width ocr_data))%nat ->
  (length (ocr_text ocr_data) <= length (ocr_height ocr_data))%nat ->
  (length (ocr_text ocr_data) <= length (ocr_conf ocr_data))%nat ->
  forall i d, from_row q ocr_data i d -> d ∈ display_find screenshot data.
Proof.
  intros Hocr Hquery Hl Ht Hw Hh Hc i d Hrow.
  unfold display_find. cbv zeta. rewrite Hocr, Hquery. simpl.
  destruct (find_loop_complete q ocr_data 0 (ocr_text ocr_data) []) as (out & -> & _ & Hall).
  { intros j Hj. simpl. lia. }
  destruct Hrow as (bx & b_y & w & h & conf & Hword & H1 & H2 & H3 & H4 & H5 & Hd
                    & Hblank & Hin & Hconf).
  apply (Hall i (text d) d Hword). simpl. apply find_element_Some.
  split; [done|]. exists bx, b_y, w, h, conf. repeat split; try done.
  by apply contains_append.
Qed.

Lemma find_returns_every_match_witness :
  let OCR := scripted_ocr (Ok three_words) in
  {| type := "text"; text := "File"; bounds := box 10 5 30 12; confidence := 96 / 100 |}
  ∈ display_find screen ∅.
Proof.
  intros OCR.
  refine (find_returns_every_match screen ∅ three_words "" _ _ _ _ _ _ _ 0%nat _ _);
    try (vm_compute; reflexivity); try (simpl; lia).
  exists 10, 5, 30, 12, 96%Q. repeat split; try done.
  by exists "", "file".
Defined.

(** ** The clipboard trick *)

(** X25: when [os_selected_text] answers with success, the clipboard is
    again what it was before the request, and the text reported is what the
    copy key press put on the clipboard, or the empty string when that
    equals what the clipboard held before.  When it answers with an error
    nothing is restored: if the key press (or the second read of the
    clipboard) raises, the clipboard stays as the key press left it; if the
    restoring [pyperclip.copy] raises, it stays as that call left it. *)
Theorem selected_text_clipboard `{OS : desktop} (clipboard : string) :
  let copied := fst (hotkey_ctrl_c clipboard) in
  (forall final t,
      os_selected_text clipboard = (final, SelectedOk t) ->
      final = clipboard
      /\ ((copied = clipboard /\ t = "") \/ (copied <> clipboard /\ t = copied)))
  /\ (import_error = None -> paste_error 0 = None ->
      (forall e, snd (hotkey_ctrl_c clipboard) = Some e ->
          os_selected_text clipboard = (copied, SelectedError e))
      /\ (forall e, snd (hotkey_ctrl_c clipboard) = None -> paste_error 1 = Some e ->
             os_selected_text clipboard = (copied, SelectedError e))
      /\ (forall remains e,
             snd (hotkey_ctrl_c clipboard) = None -> paste_error 1 = None ->
             copied <> clipboard ->
             copy_failure clipboard copied = Some (remains, e) ->
             os_selected_text clipboard = (remains, SelectedError e))).
Proof.
  cbv zeta. unfold os_selected_text.
  destruct (hotkey_ctrl_c clipboard) as [copied raised]. simpl.
  split.
  - intros final t.
    destruct import_error; [done|]. destruct (paste_error 0); [done|].
    destruct raised; [done|]. destruct (paste_error 1); [done|].
    destruct (String.eqb clipboard copied) eqn:E; simpl.
    + apply String.eqb_eq in E as <-. rewrite String.eqb_refl. simpl.
      intros [= <- <-]. split; [done|]. by left.
    + apply String.eqb_neq in E.
      assert (E' : String.eqb copied clipboard = false) by (apply String.eqb_neq; congruence).
      rewrite E'. simpl.
      destruct (copy_failure clipboard copied) as [[remains e]|]; [done|].
      intros [= <- <-]. split; [done|]. right. split; congruence.
  - intros -> ->. split; [|split].
    + by intros e ->.
    + by intros e -> ->.
    + intros remains e -> -> Hne Hcopy.
      assert (E : String.eqb clipboard copied = false) by (apply String.eqb_neq; congruence).
      rewrite E. simpl. by rewrite Hcopy.
Qed.

Example selection_equal_to_clipboard_is_not_reported :
  let OS := working_desktop "hello" in
  os_selected_text "hello" = ("hello", SelectedOk "")
  /\ os_selected_text "other" = ("other", SelectedOk "hello").
Proof. split; reflexivity. Qed.

Example failed_key_press_leaves_the_copied_text :
  let OS := failing_desktop "hello" in
  os_selected_text "other" = ("hello", SelectedError "FailSafeException").
Proof. reflexivity. Qed.
